(** * ultrafast.core: dispersive materials, checked against their specification

    A shallow embedding of [ultrafast/core.py] (the [Material] and
    [RIIDMaterial] classes, the error classes and the wavelength/frequency
    converters) together with the properties its specification states.

    Conventions of the embedding.
    - Python numbers are read as real numbers ([R]); rounding, overflow and
      the non-finite floats are not represented.  The arithmetic exceptions
      of Python that do not depend on rounding are kept: division by zero
      raises [ZeroDivisionError], [math.sqrt] of a negative number and
      [math.pow] outside its domain raise [ValueError].
    - A computation that may raise is a value of [result]; statements are
      sequenced with [x <- e ;; k] in evaluation order.
    - An object is a record of its attributes; a method takes the object and
      returns the updated one.  The closure installed by the [n] setter reads
      [self.range_] when it is called, so calling it takes the current
      object.
    - Fetching the database entry and decoding its YAML are done by
      [urllib] and [yaml]; [RIIDMaterial.__init__] is embedded from the
      decoded [entry] on. *)

From Stdlib Require Import Reals Lra Lia ZArith Bool String Ascii List.
Import ListNotations.

Open Scope string_scope.
Open Scope R_scope.

(* ================================================================= *)
(** ** Exceptions and fallible computations *)

(** The exception classes of the module ([UltrafastError] and its two
    subclasses, with the attributes their [__init__] stores) and the
    built-in exceptions the embedded code can raise. *)
Inductive exn : Type :=
| UltrafastError (message : string)
| RangeError (value : R) (valid : list R) (message : string)
| PropertySetError (property_ : string) (message : string)
| ZeroDivisionError
| ValueError
| IndexError
| KeyError (key : string)
| TypeError.

Inductive result (A : Type) : Type :=
| Ok (a : A)
| Raise (e : exn).

Arguments Ok {A} a.
Arguments Raise {A} e.

Definition bind {A B : Type} (m : result A) (k : A -> result B) : result B :=
  match m with
  | Ok a => k a
  | Raise e => Raise e
  end.

Notation "x <- m ;; k" := (bind m (fun x => k))
  (at level 61, m at next level, right associativity).
Notation "m ;;; k" := (bind m (fun _ => k))
  (at level 61, right associativity).

(** [isinstance(e, UltrafastError)], [RangeError] and [PropertySetError]
    being its subclasses. *)
Definition is_UltrafastError (e : exn) : bool :=
  match e with
  | UltrafastError _ | RangeError _ _ _ | PropertySetError _ _ => true
  | _ => false
  end.

(** [[f(x) for x in xs]], evaluated left to right. *)
Fixpoint comprehension {A B : Type} (f : A -> result B) (xs : list A)
  : result (list B) :=
  match xs with
  | [] => Ok []
  | x :: xs' => y <- f x ;; ys <- comprehension f xs' ;; Ok (y :: ys)
  end.

(** [for x in xs: acc = body(acc, x)]. *)
Fixpoint for_each {A S : Type} (body : S -> A -> result S) (xs : list A)
  (acc : S) : result S :=
  match xs with
  | [] => Ok acc
  | x :: xs' => acc' <- body acc x ;; for_each body xs' acc'
  end.

(* ================================================================= *)
(** ** Built-ins used by the module *)

(** [l[i]] for a non-negative literal index. *)
Definition getitem {A : Type} (l : list A) (i : nat) : result A :=
  match nth_error l i with
  | Some a => Ok a
  | None => Raise IndexError
  end.

(** [l[i:j]] for non-negative bounds; a slice never raises. *)
Definition slice {A : Type} (l : list A) (i j : nat) : list A :=
  firstn (j - i) (skipn i l).

Fixpoint range_from (fuel start stop step : nat) : list nat :=
  match fuel with
  | O => []
  | S fuel' =>
      if (start <? stop)%nat
      then start :: range_from fuel' (start + step) stop step
      else []
  end.

(** [range(start, stop, step)] for a positive step. *)
Definition py_range (start stop step : nat) : list nat :=
  range_from stop start stop step.

(** [enumerate(l, start)]. *)
Fixpoint enumerate {A : Type} (l : list A) (start : nat) : list (nat * A) :=
  match l with
  | [] => []
  | a :: l' => (start, a) :: enumerate l' (S start)
  end.

(** [a / b] on numbers. *)
Definition py_div (a b : R) : result R :=
  if Req_dec_T b 0 then Raise ZeroDivisionError else Ok (a / b).

(** [math.sqrt]. *)
Definition math_sqrt (x : R) : result R :=
  if Rlt_dec x 0 then Raise ValueError else Ok (sqrt x).

(** [math.pow x y]: [1] for a zero exponent; the real power for a positive
    base; for a zero base [0] when [y > 0] and a domain error otherwise; for
    a negative base the integer power when [y] is an integer and a domain
    error otherwise.  These are its results and its domain errors over the
    real numbers: the [OverflowError] it raises when a result leaves the
    range of the floats depends on that range and, like rounding, has no
    counterpart here. *)
Definition math_pow (x y : R) : result R :=
  if Req_dec_T y 0 then Ok 1
  else if Rlt_dec 0 x then Ok (Rpower x y)
  else if Req_dec_T x 0 then
    (if Rlt_dec 0 y then Ok 0 else Raise ValueError)
  else if Req_dec_T (frac_part y) 0 then Ok (powerRZ x (Int_part y))
  else Raise ValueError.

(** *** Strings *)

(** [str.isspace] on the ASCII range. *)
Definition isspace (a : ascii) : bool :=
  let k := nat_of_ascii a in
  ((9 <=? k) && (k <=? 13) || (28 <=? k) && (k <=? 32))%nat.

Fixpoint split_from (s tok : string) : list string :=
  match s with
  | EmptyString => if (tok =? "")%string then [] else [tok]
  | String a s' =>
      if isspace a
      then (if (tok =? "")%string then split_from s' ""
            else tok :: split_from s' "")
      else split_from s' (tok ++ String a "")
  end.

(** [s.split()]: the maximal runs of non-blank characters. *)
Definition split (s : string) : list string := split_from s "".

(** [s.startswith(p)]. *)
Definition startswith (s p : string) : bool := String.prefix p s.

Definition digit_of (a : ascii) : option Z :=
  let k := nat_of_ascii a in
  if ((48 <=? k) && (k <=? 57))%nat then Some (Z.of_nat (k - 48)) else None.

(** The longest prefix of decimal digits of [s], read onto [acc]: its value,
    the number of digits read and the rest of the string. *)
Fixpoint read_digits (s : string) (acc : Z) (count : nat)
  : Z * nat * string :=
  match s with
  | EmptyString => (acc, count, s)
  | String a s' =>
      match digit_of a with
      | Some d => read_digits s' (10 * acc + d)%Z (S count)
      | None => (acc, count, s)
      end
  end.

(** An optional sign: [true] for a leading minus. *)
Definition read_sign (s : string) : bool * string :=
  match s with
  | String "-" s' => (true, s')
  | String "+" s' => (false, s')
  | _ => (false, s)
  end.

Definition apply_sign (neg : bool) (z : Z) : Z := if neg then (- z)%Z else z.

(** [int(s)] on a token: an optional sign and decimal digits. *)
Definition int_of_string (s : string) : result Z :=
  let '(neg, s1) := read_sign s in
  match read_digits s1 0 0 with
  | (z, S _, EmptyString) => Ok (apply_sign neg z)
  | _ => Raise ValueError
  end.

(** A decimal numeral [mantissa * 10 ^ exponent]. *)
Record decimal : Type := { mantissa : Z; exponent : Z }.

Definition read_exponent (s : string) : option Z :=
  match s with
  | EmptyString => Some 0%Z
  | String a s1 =>
      if (Ascii.eqb a "e" || Ascii.eqb a "E")%bool then
        let '(neg, s2) := read_sign s1 in
        match read_digits s2 0 0 with
        | (z, S _, EmptyString) => Some (apply_sign neg z)
        | _ => None
        end
      else None
  end.

(** The decimal literals [float] accepts on a token: sign, digits with an
    optional fraction (at least one digit in all), optional exponent.  The
    spellings [inf] and [nan], which stand for no real number, and digit
    groups written with underscores are not read. *)
Definition decimal_of_string (s : string) : option decimal :=
  let '(neg, s1) := read_sign s in
  let '(i, ni, s2) := read_digits s1 0 0 in
  let '(m, nf, s3) :=
    match s2 with
    | String "." s2' => read_digits s2' i 0
    | _ => (i, O, s2)
    end in
  match (ni + nf)%nat, read_exponent s3 with
  | S _, Some e =>
      Some {| mantissa := apply_sign neg m; exponent := (e - Z.of_nat nf)%Z |}
  | _, _ => None
  end.

Definition R_of_decimal (d : decimal) : R :=
  IZR (mantissa d) * powerRZ 10 (exponent d).

(** [float(s)]. *)
Definition float_of_string (s : string) : result R :=
  match decimal_of_string s with
  | Some d => Ok (R_of_decimal d)
  | None => Raise ValueError
  end.

(* ================================================================= *)
(** ** Module constants and converters *)

(** [scipy.constants.speed_of_light], in m/s. *)
Definition speed_of_light : R := 299792458.

(** [c = speed_of_light * (1e-9)]: the speed of light in um/fs. *)
Definition c : R := speed_of_light * 1e-9.

Definition _converter (value : R) : result R := py_div (c * 2 * PI) value.

Definition frequency (lambda_ : R) : result R := _converter lambda_.

Definition wavelength (omega : R) : result R := _converter omega.

(* ================================================================= *)
(** ** class Material *)

(** A Python callable applied to its positional arguments. *)
Definition callable_t : Type := list R -> result R.

(** The objects a caller may hand over as dispersion function. *)
Inductive pyobj : Type :=
| PyNone
| PyFloat (x : R)
| PyStr (s : string)
| PyCallable (f : callable_t).

(** [callable(value)]: the function when there is one. *)
Definition callable (value : pyobj) : option callable_t :=
  match value with
  | PyCallable f => Some f
  | _ => None
  end.

(** The attributes of an instance.  [_n] holds the function [value] that
    the closure built by the [n] setter captures ([None] before the first
    assignment); [_range_] the stored range; [type_] belongs to the subclass
    [RIIDMaterial] and stays [None] on a plain [Material]. *)
Record Material : Type := {
  name : option string;
  _range_ : option (list R);
  references : option string;
  comments : option string;
  _n : option callable_t;
  type_ : option string
}.

(** A fresh instance: every attribute is the class attribute [None]. *)
Definition blank : Material :=
  {| name := None; _range_ := None; references := None; comments := None;
     _n := None; type_ := None |}.

Definition with_range (self : Material) (value : list R) : Material :=
  {| name := name self; _range_ := Some value;
     references := references self; comments := comments self;
     _n := _n self; type_ := type_ self |}.

Definition with_n (self : Material) (value : callable_t) : Material :=
  {| name := name self; _range_ := _range_ self;
     references := references self; comments := comments self;
     _n := Some value; type_ := type_ self |}.

Definition with_type (self : Material) (value : string) : Material :=
  {| name := name self; _range_ := _range_ self;
     references := references self; comments := comments self;
     _n := _n self; type_ := Some value |}.

Definition with_metadata (self : Material)
  (name' references' comments' : option string) : Material :=
  {| name := name'; _range_ := _range_ self;
     references := references'; comments := comments';
     _n := _n self; type_ := type_ self |}.

(** The [range_] getter; subscripting [None] is a [TypeError]. *)
Definition range_ (self : Material) : result (list R) :=
  match _range_ self with
  | Some r => Ok r
  | None => Raise TypeError
  end.

(** [Material._assert_frequency]: the chained comparison
    [self.range_[0] <= omega <= self.range_[1]] reads the upper bound only
    when the first comparison holds. *)
Definition _assert_frequency (self : Material) (omega : R) : result unit :=
  r <- range_ self ;;
  lo <- getitem r 0 ;;
  if Rle_dec lo omega then
    r' <- range_ self ;;
    hi <- getitem r' 1 ;;
    if Rle_dec omega hi then Ok tt
    else
      valid <- range_ self ;;
      Raise (RangeError omega valid "Angular frequency out of material range")
  else
    valid <- range_ self ;;
    Raise (RangeError omega valid "Angular frequency out of material range").

(** The [range_] setter; [len(None)] is a [TypeError]. *)
Definition set_range_ (self : Material) (value : option (list R))
  : result Material :=
  match value with
  | None => Raise TypeError
  | Some value =>
      if negb (length value =? 2)%nat then
        Raise (PropertySetError "range_" "Frequency range is not a 2-tuple")
      else
        v0 <- getitem value 0 ;;
        v1 <- getitem value 1 ;;
        let value := if Rgt_dec v0 v1 then rev value else value in
        Ok (with_range self value)
  end.

(** The [n] setter. *)
Definition set_n (self : Material) (value : pyobj) : result Material :=
  match callable value with
  | None =>
      Raise (PropertySetError "n" "Refractive index function is not callable")
  | Some value => Ok (with_n self value)
  end.

(** Calling [self.n] on the argument tuple [args]: the closure of the
    setter, which asserts the frequency [args[0]] on the object as it is now
    and then calls the captured [value] on the same arguments. *)
Definition n (self : Material) (args : list R) : result R :=
  match _n self with
  | None => Raise TypeError
  | Some value =>
      omega <- getitem args 0 ;;
      _assert_frequency self omega ;;;
      value args
  end.

(** [Material.__init__]. *)
Definition Material_init (self : Material) (n : pyobj)
  (range_ : option (list R)) (name references comments : option string)
  : result Material :=
  self <- set_n self n ;;
  self <- set_range_ self range_ ;;
  Ok (with_metadata self name references comments).

(** [Material.wavevector]. *)
Definition wavevector (self : Material) (omega : R) : result R :=
  _assert_frequency self omega ;;;
  v <- n self [omega] ;;
  py_div (omega * v) c.

(** [Material.brewster]; [air] is the module-level material built at import
    time from the Ciddor entry of the database. *)
Definition brewster (air : Material) (self : Material) (omega : R)
  (inc_mat : option Material) : result R :=
  _assert_frequency self omega ;;;
  let inc_mat := match inc_mat with None => air | Some m => m end in
  a <- n self [omega] ;;
  b <- n inc_mat [omega] ;;
  q <- py_div a b ;;
  Ok (atan q).

(* ================================================================= *)
(** ** class RIIDMaterial *)

(** A decoded database entry: the mapping under the keys [DATA],
    [REFERENCES] and [COMMENTS], each datum a mapping under [type], [range]
    and [coefficients].  An absent key is [None]. *)
Record datum : Type := {
  datum_type : option string;
  datum_range : option string;
  datum_coefficients : option string
}.

Record entry : Type := {
  DATA : option (list datum);
  REFERENCES : option string;
  COMMENTS : option string
}.

(** [d[key]] on a mapping. *)
Definition lookup (field : option string) (key : string) : result string :=
  match field with
  | Some v => Ok v
  | None => Raise (KeyError key)
  end.

(** [[coefficients[i:i + k] for i in indices]]. *)
Definition chunks (coefficients : list R) (k : nat) (indices : list nat)
  : list (list R) :=
  map (fun i => slice coefficients i (i + k)) indices.

(** Formula 1 - Sellmeier (preferred). *)
Definition formula_1 (coefficients : list R) (lambda_ : R) : result R :=
  c0 <- getitem coefficients 0 ;;
  n2 <- for_each
    (fun n2 x =>
       x0 <- getitem x 0 ;;
       p <- math_pow lambda_ 2 ;;
       q <- math_pow lambda_ 2 ;;
       x1 <- getitem x 1 ;;
       r <- math_pow x1 2 ;;
       t <- py_div (x0 * p) (q - r) ;;
       Ok (n2 + t))
    (chunks coefficients 2 (py_range 1 (length coefficients) 2))
    (1 + c0) ;;
  math_sqrt n2.

(** Formula 2 - Sellmeier-2. *)
Definition formula_2 (coefficients : list R) (lambda_ : R) : result R :=
  c0 <- getitem coefficients 0 ;;
  n2 <- for_each
    (fun n2 x =>
       x0 <- getitem x 0 ;;
       p <- math_pow lambda_ 2 ;;
       q <- math_pow lambda_ 2 ;;
       x1 <- getitem x 1 ;;
       t <- py_div (x0 * p) (q - x1) ;;
       Ok (n2 + t))
    (chunks coefficients 2 (py_range 1 (length coefficients) 2))
    (1 + c0) ;;
  math_sqrt n2.

(** Formula 3 - Polynomial. *)
Definition formula_3 (coefficients : list R) (lambda_ : R) : result R :=
  c0 <- getitem coefficients 0 ;;
  n2 <- for_each
    (fun n2 x =>
       x0 <- getitem x 0 ;;
       x1 <- getitem x 1 ;;
       p <- math_pow lambda_ x1 ;;
       Ok (n2 + x0 * p))
    (chunks coefficients 2 (py_range 1 (length coefficients) 2))
    c0 ;;
  math_sqrt n2.

(** Formula 4 - RefractiveIndex.info. *)
Definition formula_4 (coefficients : list R) (lambda_ : R) : result R :=
  c0 <- getitem coefficients 0 ;;
  n2 <- for_each
    (fun n2 x =>
       x0 <- getitem x 0 ;;
       x1 <- getitem x 1 ;;
       p <- math_pow lambda_ x1 ;;
       q <- math_pow lambda_ 2 ;;
       x2 <- getitem x 2 ;;
       x3 <- getitem x 3 ;;
       r <- math_pow x2 x3 ;;
       t <- py_div (x0 * p) (q - r) ;;
       Ok (n2 + t))
    (chunks coefficients 4 [1; 5]%nat)
    c0 ;;
  n2 <- for_each
    (fun n2 x =>
       x0 <- getitem x 0 ;;
       x1 <- getitem x 1 ;;
       p <- math_pow lambda_ x1 ;;
       Ok (n2 + x0 * p))
    (chunks coefficients 2 (py_range 9 (length coefficients) 2))
    n2 ;;
  math_sqrt n2.

(** Formula 5 - Cauchy. *)
Definition formula_5 (coefficients : list R) (lambda_ : R) : result R :=
  c0 <- getitem coefficients 0 ;;
  for_each
    (fun n x =>
       x0 <- getitem x 0 ;;
       x1 <- getitem x 1 ;;
       p <- math_pow lambda_ x1 ;;
       Ok (n + x0 * p))
    (chunks coefficients 2 (py_range 1 (length coefficients) 2))
    c0.

(** Formula 6 - Gases. *)
Definition formula_6 (coefficients : list R) (lambda_ : R) : result R :=
  c0 <- getitem coefficients 0 ;;
  for_each
    (fun n x =>
       x0 <- getitem x 0 ;;
       x1 <- getitem x 1 ;;
       p <- math_pow lambda_ (-2) ;;
       t <- py_div x0 (x1 - p) ;;
       Ok (n + t))
    (chunks coefficients 2 (py_range 1 (length coefficients) 2))
    (1 + c0).

(** Formula 7 - Herzberger. *)
Definition formula_7 (coefficients : list R) (lambda_ : R) : result R :=
  n <- getitem coefficients 0 ;;
  c1 <- getitem coefficients 1 ;;
  p <- math_pow lambda_ 2 ;;
  t <- py_div c1 (p - 0.028) ;;
  let n := n + t in
  c2 <- getitem coefficients 2 ;;
  p <- math_pow lambda_ 2 ;;
  q <- math_pow (p - 0.028) (-2) ;;
  let n := n + c2 * q in
  for_each
    (fun n ix =>
       p <- math_pow lambda_ (2 * INR (fst ix)) ;;
       Ok (n + snd ix * p))
    (enumerate (skipn 3 coefficients) 1)
    n.

(** Formula 8 - Retro. *)
Definition formula_8 (coefficients : list R) (lambda_ : R) : result R :=
  c0 <- getitem coefficients 0 ;;
  c1 <- getitem coefficients 1 ;;
  p <- math_pow lambda_ 2 ;;
  q <- math_pow lambda_ 2 ;;
  c2 <- getitem coefficients 2 ;;
  t <- py_div (c1 * p) (q - c2) ;;
  c3 <- getitem coefficients 3 ;;
  r <- math_pow lambda_ 2 ;;
  let alpha := c0 + t + c3 * r in
  u <- py_div (2 * alpha + 1) (alpha - 1) ;;
  math_sqrt (- u).

(** Formula 9 - Exotic. *)
Definition formula_9 (coefficients : list R) (lambda_ : R) : result R :=
  n2 <- getitem coefficients 0 ;;
  c1 <- getitem coefficients 1 ;;
  p <- math_pow lambda_ 2 ;;
  c2 <- getitem coefficients 2 ;;
  t <- py_div c1 (p - c2) ;;
  let n2 := n2 + t in
  c3 <- getitem coefficients 3 ;;
  c4 <- getitem coefficients 4 ;;
  c4' <- getitem coefficients 4 ;;
  q <- math_pow (lambda_ - c4') 2 ;;
  c5 <- getitem coefficients 5 ;;
  u <- py_div (c3 * (lambda_ - c4)) (q + c5) ;;
  math_sqrt (n2 + u).

(** [frequency_wrap]: the function of the angular frequency made from a
    function of the wavelength; it takes one positional argument. *)
Definition frequency_wrap (fun_of_lambda : R -> result R) : callable_t :=
  fun args =>
    match args with
    | [omega] => lambda_ <- wavelength omega ;; fun_of_lambda lambda_
    | _ => Raise TypeError
    end.

(** The [if formula == 1: ... elif ... else: raise RangeError] chain. *)
Definition dispersion_of_formula (formula : Z) (coefficients : list R)
  : result callable_t :=
  if (formula =? 1)%Z then Ok (frequency_wrap (formula_1 coefficients))
  else if (formula =? 2)%Z then Ok (frequency_wrap (formula_2 coefficients))
  else if (formula =? 3)%Z then Ok (frequency_wrap (formula_3 coefficients))
  else if (formula =? 4)%Z then Ok (frequency_wrap (formula_4 coefficients))
  else if (formula =? 5)%Z then Ok (frequency_wrap (formula_5 coefficients))
  else if (formula =? 6)%Z then Ok (frequency_wrap (formula_6 coefficients))
  else if (formula =? 7)%Z then Ok (frequency_wrap (formula_7 coefficients))
  else if (formula =? 8)%Z then Ok (frequency_wrap (formula_8 coefficients))
  else if (formula =? 9)%Z then Ok (frequency_wrap (formula_9 coefficients))
  else
    Raise (RangeError (IZR formula) [1; 9]
             "RIID dispersion formula out of range").

(** The local variables [n] and [range_] of [__init__] and the attribute
    [self.type_], as the loop over the data leaves them. *)
Record locals : Type := {
  local_type : option string;
  local_n : pyobj;
  local_range : option (list R)
}.

(** The range of a datum: [[frequency(float(x)) for x in
    reversed(datum["range"].split())]]. *)
Definition parse_range (d : datum) : result (list R) :=
  s <- lookup (datum_range d) "range" ;;
  comprehension (fun x => v <- float_of_string x ;; frequency v)
    (rev (split s)).

(** The coefficients of a datum: [[float(x) for x in
    datum["coefficients"].split()]]. *)
Definition parse_coefficients (d : datum) : result (list R) :=
  s <- lookup (datum_coefficients d) "coefficients" ;;
  comprehension float_of_string (split s).

(** [int(self.type_.split()[1])]. *)
Definition formula_index (type_ : string) : result Z :=
  i <- getitem (split type_) 1 ;;
  int_of_string i.

(** The body of the branch for an analytical dispersion. *)
Definition analytical (d : datum) (type_ : string) : result locals :=
  range_ <- parse_range d ;;
  coefficients <- parse_coefficients d ;;
  formula <- formula_index type_ ;;
  n <- dispersion_of_formula formula coefficients ;;
  Ok {| local_type := Some type_; local_n := PyCallable n;
        local_range := Some range_ |}.

(** [for datum in entry["DATA"]: ...], with what it prints.  Both the
    branch for [formula] and the branch for [tabulated n] end in [break];
    a datum of another type is passed over. *)
Fixpoint data_loop (data : list datum) (vars : locals)
  : list string * result locals :=
  match data with
  | [] => ([], Ok vars)
  | d :: data' =>
      match lookup (datum_type d) "type" with
      | Raise e => ([], Raise e)
      | Ok type_ =>
          let vars := {| local_type := Some type_; local_n := local_n vars;
                         local_range := local_range vars |} in
          if startswith type_ "formula" then ([], analytical d type_)
          else if startswith type_ "tabulated n" then
            (["Tabulated dispersion function"], Ok vars)
          else data_loop data' vars
      end
  end.

Definition is_None (o : pyobj) : bool :=
  match o with
  | PyNone => true
  | _ => false
  end.

(** The extraction of the dispersion function and of the range. *)
Definition extract_dispersion (e : entry) : list string * result locals :=
  let vars := {| local_type := None; local_n := PyNone;
                 local_range := None |} in
  match DATA e with
  | None => ([], Ok vars)
  | Some data =>
      let '(out, r) := data_loop data vars in
      (out,
       vars <- r ;;
       if is_None (local_n vars)
       then Raise (UltrafastError "No dispersion data found in RIID entry")
       else Ok vars)
  end.

(** [RIIDMaterial.__init__] on the decoded entry of [db]: what it prints
    and the instance or the exception. *)
Definition RIIDMaterial_init (db : string) (e : entry)
  : list string * result Material :=
  let '(out, r) := extract_dispersion e in
  (out,
   vars <- r ;;
   let self :=
     match local_type vars with
     | Some t => with_type blank t
     | None => blank
     end in
   Material_init self (local_n vars) (local_range vars) (Some db)
     (REFERENCES e) (COMMENTS e)).

(* ================================================================= *)
(** ** Life of an instance, and the records used as examples *)

(** The instances a client can hold: built by [Material.__init__] (directly
    or through [RIIDMaterial.__init__], which ends in it), then changed
    through the two property setters or by plain assignment of the
    metadata attributes. *)
Inductive Reachable : Material -> Prop :=
| reach_init (self : Material) (n : pyobj) (r : option (list R))
    (nm refs com : option string) (m : Material) :
    Material_init self n r nm refs com = Ok m -> Reachable m
| reach_set_range (m : Material) (v : option (list R)) (m' : Material) :
    Reachable m -> set_range_ m v = Ok m' -> Reachable m'
| reach_set_n (m : Material) (v : pyobj) (m' : Material) :
    Reachable m -> set_n m v = Ok m' -> Reachable m'
| reach_metadata (m : Material) (nm refs com : option string) :
    Reachable m -> Reachable (with_metadata m nm refs com).

(** The invariant of an instance: a dispersion function is installed and
    the stored range is a pair in ascending order. *)
Definition well_formed (m : Material) : Prop :=
  (exists f, _n m = Some f)
  /\ exists lo hi, _range_ m = Some [lo; hi] /\ lo <= hi.

(** The message of the [RangeError] of [_assert_frequency]. *)
Definition out_of_range_message : string :=
  "Angular frequency out of material range".

(** [lo <= omega <= hi] for the stored range [(lo, hi)] of [self]. *)
Definition in_range (self : Material) (omega : R) : Prop :=
  exists lo hi, _range_ self = Some [lo; hi] /\ lo <= omega <= hi.

(** A datum that neither branch of the loop takes. *)
Definition passed_over (d : datum) : Prop :=
  exists t, datum_type d = Some t /\ startswith t "formula" = false
            /\ startswith t "tabulated n" = false.

(** The Sellmeier expression as the specification writes it: [n^2 = 1 + c0
    + sum over the pairs (ci, ci+1) of ci * l^2 / (l^2 - ci+1^2)]. *)
Definition sellmeier_n2 (c0 : R) (pairs : list (R * R)) (l : R) : R :=
  1 + c0
  + fold_right (fun p acc => fst p * l ^ 2 / (l ^ 2 - snd p ^ 2) + acc) 0 pairs.

(** The coefficient sequence [c0, c1, c2, ...] read as the leading [c0]
    followed by the pairs [(c1, c2), (c3, c4), ...]. *)
Definition flatten_pairs (pairs : list (R * R)) : list R :=
  flat_map (fun p => [fst p; snd p]) pairs.

(** The dummy dispersion function of the test suite, [n(omega) = omega]. *)
Definition test_n : callable_t :=
  fun args =>
    match args with
    | [omega] => Ok omega
    | _ => Raise TypeError
    end.

(** The material of the test suite, as its [setUp] builds it. *)
Definition test_material : Material :=
  {| name := Some "Test material name";
     _range_ := Some [1; 10];
     references := Some "Test material references";
     comments := Some "Test material comments";
     _n := Some test_n;
     type_ := None |}.

(** The same function, valid on the narrower range [(2, 3)]. *)
Definition narrow_material : Material :=
  {| name := None; _range_ := Some [2; 3]; references := None;
     comments := None; _n := Some test_n; type_ := None |}.

(** A dispersion function that returns [0] everywhere. *)
Definition zero_n : callable_t := fun _ => Ok 0.

Definition zero_material : Material :=
  {| name := None; _range_ := Some [1; 10]; references := None;
     comments := None; _n := Some zero_n; type_ := None |}.

(** The Sellmeier datum of the specification's example. *)
Definition sellmeier_datum : datum :=
  {| datum_type := Some "formula 1";
     datum_range := Some "10 1";
     datum_coefficients := Some "0 1 1.5" |}.

Definition sellmeier_entry : entry :=
  {| DATA := Some [sellmeier_datum]; REFERENCES := None; COMMENTS := None |}.

(** The instance [RIIDMaterial.__init__] builds from an entry whose first
    datum taken is [sellmeier_datum]. *)
Definition sellmeier_material (db : string) (refs com : option string)
  : Material :=
  {| name := Some db;
     _range_ := Some [c * 2 * PI / 10; c * 2 * PI / 1];
     references := refs;
     comments := com;
     _n := Some (frequency_wrap (formula_1 [0; 1; 1.5]));
     type_ := Some "formula 1" |}.

(** The same datum under a formula index the module does not support. *)
Definition bad_formula_datum : datum :=
  {| datum_type := Some "formula 12";
     datum_range := Some "10 1";
     datum_coefficients := Some "0 1 1.5" |}.

Definition bad_formula_entry : entry :=
  {| DATA := Some [bad_formula_datum]; REFERENCES := None;
     COMMENTS := None |}.

(** The datum of [bad_formula_datum] with a zero wavelength bound. *)
Definition zero_bound_datum : datum :=
  {| datum_type := Some "formula 12";
     datum_range := Some "10 0";
     datum_coefficients := Some "0 1 1.5" |}.

Definition zero_bound_entry : entry :=
  {| DATA := Some [zero_bound_datum]; REFERENCES := None;
     COMMENTS := None |}.

(** A tabulated datum (it carries its table under another key). *)
Definition tabulated_datum : datum :=
  {| datum_type := Some "tabulated n";
     datum_range := None;
     datum_coefficients := None |}.

Definition tabulated_then_formula_entry : entry :=
  {| DATA := Some [tabulated_datum; sellmeier_datum]; REFERENCES := None;
     COMMENTS := None |}.

(* ================================================================= *)
(** ** Names for what the constructor of [RIIDMaterial] builds *)

(** The function of the wavelength that the chain of [dispersion_of_formula]
    defines under the index [formula], for an index from [1] to [9]. *)
Definition formula_of (formula : Z) : list R -> R -> result R :=
  if (formula =? 1)%Z then formula_1
  else if (formula =? 2)%Z then formula_2
  else if (formula =? 3)%Z then formula_3
  else if (formula =? 4)%Z then formula_4
  else if (formula =? 5)%Z then formula_5
  else if (formula =? 6)%Z then formula_6
  else if (formula =? 7)%Z then formula_7
  else if (formula =? 8)%Z then formula_8
  else formula_9.

(** The instance built from the database entry [e] of [db] when the first
    datum taken has the type [t] with formula index [k], the coefficients
    [cs] and the two converted range bounds [r1] and [r2]. *)
Definition riid_material (db : string) (e : entry) (t : string) (k : Z)
  (cs : list R) (r1 r2 : R) : Material :=
  {| name := Some db;
     _range_ := Some [Rmin r1 r2; Rmax r1 r2];
     references := REFERENCES e;
     comments := COMMENTS e;
     _n := Some (frequency_wrap (formula_of k cs));
     type_ := Some t |}.

(** An entry without the key [DATA]. *)
Definition empty_entry : entry :=
  {| DATA := None; REFERENCES := Some "Ciddor 1996"; COMMENTS := None |}.

(** A datum of extinction coefficients, a type the loop passes over. *)
Definition extinction_datum : datum :=
  {| datum_type := Some "tabulated k";
     datum_range := None;
     datum_coefficients := None |}.

(** A formula datum that lacks its range and coefficients. *)
Definition bare_formula_datum : datum :=
  {| datum_type := Some "formula 1";
     datum_range := None;
     datum_coefficients := None |}.

(** A formula datum whose type carries no index. *)
Definition unindexed_formula_datum : datum :=
  {| datum_type := Some "formula";
     datum_range := Some "10 1";
     datum_coefficients := Some "0 1 1.5" |}.

(** A formula datum whose range has a single bound. *)
Definition one_bound_datum : datum :=
  {| datum_type := Some "formula 1";
     datum_range := Some "1";
     datum_coefficients := Some "0 1 1.5" |}.

(** A formula datum without any coefficient. *)
Definition no_coefficient_datum : datum :=
  {| datum_type := Some "formula 1";
     datum_range := Some "10 1";
     datum_coefficients := Some "" |}.

(** An entry holding the single datum [d]. *)
Definition entry_of (d : datum) : entry :=
  {| DATA := Some [d]; REFERENCES := None; COMMENTS := None |}.

(* ================================================================= *)
(** ** The dispersion formulas in closed form

    The expressions the formulas of the database stand for, written with
    the total operations of the real numbers; [l] is the wavelength. *)

(** The sum of [term] over the pairs of coefficients. *)
Definition pair_sum (term : R * R -> R) (pairs : list (R * R)) : R :=
  fold_right (fun p s => term p + s) 0 pairs.

(** Sellmeier-2: [n^2 = 1 + c0 + sum ci * l^2 / (l^2 - ci+1)]. *)
Definition sellmeier2_n2 (c0 : R) (pairs : list (R * R)) (l : R) : R :=
  1 + c0 + pair_sum (fun p => fst p * l ^ 2 / (l ^ 2 - snd p)) pairs.

(** Polynomial and Cauchy: [c0 + sum ci * l^(ci+1)], for a positive
    wavelength. *)
Definition power_series (c0 : R) (pairs : list (R * R)) (l : R) : R :=
  c0 + pair_sum (fun p => fst p * Rpower l (snd p)) pairs.

(** Gases: [n = 1 + c0 + sum ci / (ci+1 - l^-2)]. *)
Definition gases_n (c0 : R) (pairs : list (R * R)) (l : R) : R :=
  1 + c0 + pair_sum (fun p => fst p / (snd p - / l ^ 2)) pairs.

(** [sum xj * l^(2 * (i + j))] over the coefficients [xs], [j] counted from
    zero. *)
Fixpoint even_powers (xs : list R) (i : nat) (l : R) : R :=
  match xs with
  | [] => 0
  | x :: xs' => x * l ^ (2 * i) + even_powers xs' (S i) l
  end.

(** Herzberger: [n = c0 + c1 / (l^2 - 0.028) + c2 / (l^2 - 0.028)^2
    + c3 * l^2 + c4 * l^4 + ...]. *)
Definition herzberger_n (c0 c1 c2 : R) (rest : list R) (l : R) : R :=
  c0 + c1 / (l ^ 2 - 0.028) + c2 * / (l ^ 2 - 0.028) ^ 2
  + even_powers rest 1 l.

(** Retro: [alpha = c0 + c1 * l^2 / (l^2 - c2) + c3 * l^2]. *)
Definition retro_alpha (c0 c1 c2 c3 : R) (l : R) : R :=
  c0 + c1 * l ^ 2 / (l ^ 2 - c2) + c3 * l ^ 2.

(** RefractiveIndex.info: [n^2 = c0 + a1 * l^e1 / (l^2 - b1^f1)
    + a2 * l^e2 / (l^2 - b2^f2) + sum ci * l^(ci+1)], for a positive
    wavelength and positive [b1] and [b2]. *)
Definition riid_n2 (c0 a1 e1 b1 f1 a2 e2 b2 f2 : R)
  (pairs : list (R * R)) (l : R) : R :=
  c0 + a1 * Rpower l e1 / (l ^ 2 - Rpower b1 f1)
  + a2 * Rpower l e2 / (l ^ 2 - Rpower b2 f2)
  + pair_sum (fun p => fst p * Rpower l (snd p)) pairs.

(** Exotic: [n^2 = c0 + c1 / (l^2 - c2)
    + c3 * (l - c4) / ((l - c4)^2 + c5)]. *)
Definition exotic_n2 (c0 c1 c2 c3 c4 c5 : R) (l : R) : R :=
  c0 + c1 / (l ^ 2 - c2) + c3 * (l - c4) / ((l - c4) ^ 2 + c5).

(* ================================================================= *)
(** ** Arithmetic of the built-ins *)

Lemma py_div_Ok (a b : R) : b <> 0 -> py_div a b = Ok (a / b).
Proof.
  intros Hb. unfold py_div.
  destruct (Req_dec_T b 0) as [E | _]; [contradiction | reflexivity].
Qed.

Lemma py_div_zero (a : R) : py_div a 0 = Raise ZeroDivisionError.
Proof.
  unfold py_div. destruct (Req_dec_T 0 0) as [_ | N]; [reflexivity | ].
  exfalso; apply N; reflexivity.
Qed.

Lemma math_sqrt_Ok (x : R) : 0 <= x -> math_sqrt x = Ok (sqrt x).
Proof.
  intros Hx. unfold math_sqrt.
  destruct (Rlt_dec x 0) as [L | _]; [lra | reflexivity].
Qed.

Lemma math_sqrt_negative (x : R) : x < 0 -> math_sqrt x = Raise ValueError.
Proof.
  intros Hx. unfold math_sqrt.
  destruct (Rlt_dec x 0) as [_ | N]; [reflexivity | contradiction].
Qed.

Lemma frac_part_2 : frac_part 2 = 0 /\ Int_part 2 = 2%Z.
Proof.
  destruct (Int_part_frac_part_spec 2 2%Z 0) as [Hi Hf]; [lra | lra | ].
  split; congruence.
Qed.

(** [math.pow(x, 2)] never raises and is the square. *)
Lemma math_pow_2 (x : R) : math_pow x 2 = Ok (x ^ 2).
Proof.
  unfold math_pow.
  destruct (Req_dec_T 2 0) as [E | _]; [lra | ].
  destruct (Rlt_dec 0 x) as [Hx | Hx].
  - f_equal. change 2 with (INR 2). apply Rpower_pow; assumption.
  - destruct (Req_dec_T x 0) as [E | N].
    + destruct (Rlt_dec 0 2) as [_ | F]; [ | lra]. subst x. f_equal. lra.
    + destruct frac_part_2 as [Hf Hi]. rewrite Hf, Hi.
      destruct (Req_dec_T 0 0) as [_ | F]; [ | contradiction F; reflexivity].
      f_equal.
Qed.

Lemma c_positive : 0 < c.
Proof. unfold c, speed_of_light. lra. Qed.

Lemma two_pi_c_positive : 0 < c * 2 * PI.
Proof.
  pose proof c_positive as Hc. pose proof PI_RGT_0 as Hp.
  apply Rmult_lt_0_compat; lra.
Qed.

Lemma _converter_Ok (x : R) : x <> 0 -> _converter x = Ok (c * 2 * PI / x).
Proof. intros Hx. unfold _converter. apply py_div_Ok; assumption. Qed.

Lemma _converter_nonzero (x : R) : x <> 0 -> c * 2 * PI / x <> 0.
Proof.
  intros Hx. pose proof two_pi_c_positive as Hp.
  unfold Rdiv. apply Rmult_integral_contrapositive_currified; [lra | ].
  apply Rinv_neq_0_compat; assumption.
Qed.

Lemma _converter_involutive (x : R) :
  x <> 0 -> c * 2 * PI / (c * 2 * PI / x) = x.
Proof.
  intros Hx. pose proof c_positive as Hc. pose proof PI_RGT_0 as Hp.
  field. repeat split; lra.
Qed.

(* ================================================================= *)
(** ** The range check and the invariant of an instance *)

Lemma _assert_frequency_passes (self : Material) (lo hi omega : R) :
  _range_ self = Some [lo; hi] -> lo <= omega <= hi ->
  _assert_frequency self omega = Ok tt.
Proof.
  intros Hr [Hlo Hhi]. unfold _assert_frequency, range_. rewrite Hr. simpl.
  destruct (Rle_dec lo omega) as [_ | N]; [ | contradiction]. simpl.
  destruct (Rle_dec omega hi) as [_ | N]; [reflexivity | contradiction].
Qed.

Lemma _assert_frequency_raises (self : Material) (lo hi omega : R) :
  _range_ self = Some [lo; hi] -> ~ (lo <= omega <= hi) ->
  _assert_frequency self omega
  = Raise (RangeError omega [lo; hi] out_of_range_message).
Proof.
  intros Hr Hout. unfold _assert_frequency, range_. rewrite Hr. simpl.
  destruct (Rle_dec lo omega) as [Hlo | _]; [ | reflexivity]. simpl.
  destruct (Rle_dec omega hi) as [Hhi | _]; [ | reflexivity].
  exfalso. apply Hout. split; assumption.
Qed.

(** What a successful assignment to [range_] leaves behind. *)
Lemma set_range__stores (self self' : Material) (value : option (list R)) :
  set_range_ self value = Ok self' ->
  exists a b, value = Some [a; b]
    /\ self' = with_range self (if Rgt_dec a b then [b; a] else [a; b]).
Proof.
  unfold set_range_. destruct value as [v | ]; [ | discriminate].
  destruct v as [ | a [ | b [ | x v]]]; simpl; try discriminate.
  intros H. exists a, b. split; [reflexivity | ].
  destruct (Rgt_dec a b); simpl in H; injection H as <-; reflexivity.
Qed.

Lemma set_range__ordered (self self' : Material) (value : option (list R)) :
  set_range_ self value = Ok self' ->
  exists lo hi, _range_ self' = Some [lo; hi] /\ lo <= hi.
Proof.
  intros H. apply set_range__stores in H as (a & b & _ & ->). simpl.
  destruct (Rgt_dec a b) as [G | G].
  - exists b, a. split; [reflexivity | lra].
  - exists a, b. split; [reflexivity | lra].
Qed.

Lemma set_n_stores (self self' : Material) (value : pyobj) :
  set_n self value = Ok self' ->
  exists f, value = PyCallable f /\ self' = with_n self f.
Proof.
  unfold set_n. destruct value; simpl; try discriminate.
  intros H. injection H as <-. eexists; split; reflexivity.
Qed.

Lemma Material_init_inv (self : Material) (n0 : pyobj)
  (r : option (list R)) (nm refs com : option string) (m : Material) :
  Material_init self n0 r nm refs com = Ok m ->
  exists f a b, n0 = PyCallable f /\ r = Some [a; b]
    /\ m = with_metadata
             (with_range (with_n self f)
                (if Rgt_dec a b then [b; a] else [a; b]))
             nm refs com.
Proof.
  unfold Material_init. intros H.
  destruct (set_n self n0) as [s1 | e] eqn:E1; simpl in H; [ | discriminate].
  destruct (set_range_ s1 r) as [s2 | e] eqn:E2; simpl in H; [ | discriminate].
  injection H as <-.
  apply set_n_stores in E1 as (f & -> & ->).
  apply set_range__stores in E2 as (a & b & -> & ->).
  exists f, a, b. repeat split.
Qed.

Lemma Reachable_well_formed (m : Material) : Reachable m -> well_formed m.
Proof.
  induction 1 as [self n0 r nm refs com m H | m v m' _ IH H
                 | m v m' _ IH H | m nm refs com _ IH].
  - apply Material_init_inv in H as (f & a & b & _ & _ & ->).
    split; [exists f; reflexivity | ]. simpl.
    destruct (Rgt_dec a b).
    + exists b, a. split; [reflexivity | lra].
    + exists a, b. split; [reflexivity | lra].
  - split.
    + apply set_range__stores in H as (a & b & _ & ->). exact (proj1 IH).
    + eapply set_range__ordered; eassumption.
  - apply set_n_stores in H as (f & _ & ->).
    split; [exists f; reflexivity | exact (proj2 IH)].
  - exact IH.
Qed.

(** Calling [n] on an instance whose function is [value]. *)
Lemma n_in_range (self : Material) (value : callable_t) (lo hi omega : R) :
  _n self = Some value -> _range_ self = Some [lo; hi] ->
  lo <= omega <= hi -> n self [omega] = value [omega].
Proof.
  intros Hn Hr Hin. unfold n. rewrite Hn. simpl.
  rewrite (_assert_frequency_passes self lo hi omega Hr Hin). reflexivity.
Qed.

Lemma n_out_of_range (self : Material) (value : callable_t)
  (lo hi omega : R) :
  _n self = Some value -> _range_ self = Some [lo; hi] ->
  ~ (lo <= omega <= hi) ->
  n self [omega] = Raise (RangeError omega [lo; hi] out_of_range_message).
Proof.
  intros Hn Hr Hout. unfold n. rewrite Hn. simpl.
  rewrite (_assert_frequency_raises self lo hi omega Hr Hout). reflexivity.
Qed.

Lemma test_material_init :
  Material_init blank (PyCallable test_n) (Some [1; 10])
    (Some "Test material name") (Some "Test material references")
    (Some "Test material comments") = Ok test_material.
Proof.
  unfold Material_init. simpl.
  destruct (Rgt_dec 1 10) as [G | _]; [lra | reflexivity].
Qed.

Lemma test_material_Reachable : Reachable test_material.
Proof. eapply reach_init. exact test_material_init. Qed.

Lemma zero_material_Reachable : Reachable zero_material.
Proof.
  apply (reach_init blank (PyCallable zero_n) (Some [1; 10]) None None None).
  unfold Material_init. simpl.
  destruct (Rgt_dec 1 10) as [G | _]; [lra | reflexivity].
Qed.

(* ================================================================= *)
(** ** The converters *)

(** C3.  The two converters are the one map [x |-> 2 pi c / x], with [c] the
    speed of light in um/fs, and they are mutually inverse: for every
    non-zero [x], [wavelength(frequency(x)) = x] and
    [frequency(wavelength(x)) = x]. *)
Theorem converters_mutually_inverse (x : R) :
  x <> 0 ->
  frequency x = Ok (2 * PI * c / x)
  /\ wavelength x = Ok (2 * PI * c / x)
  /\ c = 299792458 * 1e-9
  /\ (y <- frequency x ;; wavelength y) = Ok x
  /\ (y <- wavelength x ;; frequency y) = Ok x.
Proof.
  intros Hx.
  assert (Hconv : _converter x = Ok (c * 2 * PI / x))
    by (apply _converter_Ok; assumption).
  assert (Hback : _converter (c * 2 * PI / x) = Ok x).
  { rewrite _converter_Ok by (apply _converter_nonzero; assumption).
    f_equal. apply _converter_involutive; assumption. }
  assert (Hform : c * 2 * PI / x = 2 * PI * c / x)
    by (unfold Rdiv; ring).
  unfold frequency, wavelength. rewrite Hconv. simpl. rewrite Hback.
  rewrite Hform. repeat split; reflexivity.
Qed.

Lemma converters_mutually_inverse_witness :
  (y <- frequency 1 ;; wavelength y) = Ok 1
  /\ (y <- wavelength 1 ;; frequency y) = Ok 1.
Proof.
  assert (H1 : 1 <> 0) by lra.
  split; apply (converters_mutually_inverse 1 H1).
Defined.

(* ================================================================= *)
(** ** The assignments to [range_] and [n] *)



(** C9.  Assigning to [range_] a sequence that does not have exactly two
    elements raises [PropertySetError] for the property [range_], and
    assigning to [n] an object that is not callable raises
    [PropertySetError] for the property [n]; so does the constructor, which
    assigns [n] first and [range_] second. *)
Theorem invalid_property_raises_PropertySetError (self : Material) :
  (forall value,
      length value <> 2%nat ->
      set_range_ self (Some value)
      = Raise (PropertySetError "range_" "Frequency range is not a 2-tuple"))
  /\ (forall value,
         callable value = None ->
         set_n self value
         = Raise (PropertySetError "n"
                    "Refractive index function is not callable"))
  /\ (forall n0 r nm refs com,
         callable n0 = None ->
         Material_init self n0 r nm refs com
         = Raise (PropertySetError "n"
                    "Refractive index function is not callable"))
  /\ (forall f value nm refs com,
         length value <> 2%nat ->
         Material_init self (PyCallable f) (Some value) nm refs com
         = Raise (PropertySetError "range_"
                    "Frequency range is not a 2-tuple"))
  /\ (forall n0 value nm refs com,
         length value <> 2%nat ->
         exists property_ message,
           Material_init self n0 (Some value) nm refs com
           = Raise (PropertySetError property_ message)
           /\ (property_ = "range_" \/ property_ = "n")).
Proof.
  assert (Hrange : forall s value,
             length value <> 2%nat ->
             set_range_ s (Some value)
             = Raise (PropertySetError "range_"
                        "Frequency range is not a 2-tuple")).
  { intros s value Hlen. unfold set_range_.
    apply Nat.eqb_neq in Hlen. rewrite Hlen. reflexivity. }
  assert (Hn : forall s value,
             callable value = None ->
             set_n s value
             = Raise (PropertySetError "n"
                        "Refractive index function is not callable")).
  { intros s value Hc. unfold set_n. rewrite Hc. reflexivity. }
  repeat split.
  - apply Hrange.
  - apply Hn.
  - intros n0 r nm refs com Hc. unfold Material_init.
    rewrite (Hn self n0 Hc). reflexivity.
  - intros f value nm refs com Hlen. unfold Material_init, set_n.
    cbn [callable bind]. rewrite (Hrange _ value Hlen). reflexivity.
  - intros n0 value nm refs com Hlen. unfold Material_init.
    destruct (callable n0) as [f | ] eqn:Hc.
    + destruct n0; try discriminate. unfold set_n. cbn [callable bind].
      rewrite (Hrange _ value Hlen). simpl.
      do 2 eexists. split; [reflexivity | left; reflexivity].
    + rewrite (Hn self n0 Hc). simpl.
      do 2 eexists. split; [reflexivity | right; reflexivity].
Qed.

Lemma invalid_property_raises_PropertySetError_witness :
  set_range_ test_material (Some [0; 1; 2])
  = Raise (PropertySetError "range_" "Frequency range is not a 2-tuple")
  /\ set_n test_material PyNone
     = Raise (PropertySetError "n"
                "Refractive index function is not callable").
Proof.
  split.
  - apply (proj1 (invalid_property_raises_PropertySetError test_material)).
    simpl. lia.
  - apply (proj1 (proj2
             (invalid_property_raises_PropertySetError test_material))).
    reflexivity.
Defined.

(* ================================================================= *)
(** ** The methods of [Material] *)

Section Methods.

(** The module-level material [air]. *)
Variable air : Material.

Lemma methods_out_of_range (self : Material) (lo hi omega : R) :
  Reachable self -> _range_ self = Some [lo; hi] ->
  ~ (lo <= omega <= hi) ->
  n self [omega] = Raise (RangeError omega [lo; hi] out_of_range_message)
  /\ wavevector self omega
     = Raise (RangeError omega [lo; hi] out_of_range_message)
  /\ forall inc_mat,
       brewster air self omega inc_mat
       = Raise (RangeError omega [lo; hi] out_of_range_message).
Proof.
  intros Hreach Hr Hout.
  destruct (Reachable_well_formed self Hreach) as [[value Hn] _].
  split; [ | split].
  - eapply n_out_of_range; eassumption.
  - unfold wavevector.
    rewrite (_assert_frequency_raises self lo hi omega Hr Hout). reflexivity.
  - intros inc_mat. unfold brewster.
    rewrite (_assert_frequency_raises self lo hi omega Hr Hout). reflexivity.
Qed.

(** C2.  For an instance whose stored range is [(lo, hi)] when the call is
    made and an [omega] outside [[lo, hi]], each of [n(omega)],
    [wavevector(omega)] and [brewster(omega)] (with or without an incident
    material) raises [RangeError] with [omega] as value and [(lo, hi)] as
    valid range; after a later assignment to [range_] it is the newly
    stored range that decides and is reported. *)
Theorem out_of_range_raises_RangeError (self : Material) (lo hi omega : R) :
  Reachable self -> _range_ self = Some [lo; hi] ->
  ~ (lo <= omega <= hi) ->
  (n self [omega]
   = Raise (RangeError omega [lo; hi]
              "Angular frequency out of material range")
   /\ wavevector self omega
      = Raise (RangeError omega [lo; hi]
                 "Angular frequency out of material range")
   /\ forall inc_mat,
        brewster air self omega inc_mat
        = Raise (RangeError omega [lo; hi]
                   "Angular frequency out of material range"))
  /\ forall value self' lo' hi' omega',
       set_range_ self value = Ok self' ->
       _range_ self' = Some [lo'; hi'] ->
       ~ (lo' <= omega' <= hi') ->
       n self' [omega']
       = Raise (RangeError omega' [lo'; hi']
                  "Angular frequency out of material range")
       /\ wavevector self' omega'
          = Raise (RangeError omega' [lo'; hi']
                     "Angular frequency out of material range")
       /\ forall inc_mat,
            brewster air self' omega' inc_mat
            = Raise (RangeError omega' [lo'; hi']
                       "Angular frequency out of material range").
Proof.
  intros Hreach Hr Hout. split.
  - exact (methods_out_of_range self lo hi omega Hreach Hr Hout).
  - intros value self' lo' hi' omega' Hset Hr' Hout'.
    apply (methods_out_of_range self' lo' hi' omega'); try assumption.
    eapply reach_set_range; eassumption.
Qed.


(** C7.  [wavevector(omega)] is [omega * n(omega) / c], with [c] the
    module's speed of light in um/fs, for every [omega] in the range of
    the instance; the method checks the range itself before it calls [n],
    which checks it again. *)
Theorem wavevector_formula (self : Material) (omega : R) :
  (in_range self omega ->
   wavevector self omega = (v <- n self [omega] ;; Ok (omega * v / c))
   /\ forall v, n self [omega] = Ok v ->
                wavevector self omega = Ok (omega * v / c))
  /\ wavevector self omega
     = (_assert_frequency self omega ;;;
        v <- n self [omega] ;; Ok (omega * v / c))
  /\ c = 299792458 * 1e-9.
Proof.
  assert (Hdiv : forall x, py_div x c = Ok (x / c)).
  { intros x. apply py_div_Ok. pose proof c_positive. lra. }
  assert (Hgen : wavevector self omega
                 = (_assert_frequency self omega ;;;
                    v <- n self [omega] ;; Ok (omega * v / c))).
  { unfold wavevector.
    destruct (_assert_frequency self omega); simpl; [ | reflexivity].
    destruct (n self [omega]); simpl; [apply Hdiv | reflexivity]. }
  split; [ | split; [exact Hgen | reflexivity]].
  intros (lo & hi & Hr & Hin).
  assert (Heq : wavevector self omega
                = (v <- n self [omega] ;; Ok (omega * v / c))).
  { rewrite Hgen, (_assert_frequency_passes self lo hi omega Hr Hin).
    reflexivity. }
  split; [exact Heq | ].
  intros v Hv. rewrite Heq, Hv. reflexivity.
Qed.

End Methods.

Lemma out_of_range_raises_RangeError_witness :
  n test_material [0]
  = Raise (RangeError 0 [1; 10] "Angular frequency out of material range").
Proof.
  assert (Hout : ~ (1 <= 0 <= 10)) by lra.
  exact (proj1 (proj1 (out_of_range_raises_RangeError test_material
                         test_material 1 10 0 test_material_Reachable
                         eq_refl Hout))).
Defined.


Lemma test_material_in_range : in_range test_material 5.
Proof. exists 1, 10. split; [reflexivity | lra]. Qed.

Lemma wavevector_formula_witness :
  wavevector test_material 5 = (v <- n test_material [5] ;; Ok (5 * v / c)).
Proof.
  exact (proj1 (proj1 (wavevector_formula test_material 5)
                  test_material_in_range)).
Defined.

Section Brewster.

Variable air : Material.

(** C8, as the code has it.  For every [omega] in the range of the
    instance, [brewster(omega, inc_mat)] evaluates
    [atan(n(omega) / inc_mat.n(omega))]: it returns that number when both
    calls of [n] return and the index of the incident material is not zero,
    and otherwise raises what they raise or [ZeroDivisionError]; without
    [inc_mat] the incident material is [air]; with the instance itself as
    incident material the result is [atan(1)] whenever [n(omega)] returns a
    number other than zero. *)
Theorem brewster_formula (self : Material) (omega : R) :
  in_range self omega ->
  (forall inc_mat,
      brewster air self omega inc_mat
      = (a <- n self [omega] ;;
         b <- n (match inc_mat with None => air | Some m => m end) [omega] ;;
         q <- py_div a b ;;
         Ok (atan q)))
  /\ brewster air self omega None = brewster air self omega (Some air)
  /\ (forall inc_mat a b,
         n self [omega] = Ok a -> n inc_mat [omega] = Ok b -> b <> 0 ->
         brewster air self omega (Some inc_mat) = Ok (atan (a / b)))
  /\ (forall a b,
         n self [omega] = Ok a -> n air [omega] = Ok b -> b <> 0 ->
         brewster air self omega None = Ok (atan (a / b)))
  /\ (forall v,
         n self [omega] = Ok v -> v <> 0 ->
         brewster air self omega (Some self) = Ok (atan 1)).
Proof.
  intros (lo & hi & Hr & Hin).
  assert (Hgen : forall inc_mat,
             brewster air self omega inc_mat
             = (a <- n self [omega] ;;
                b <- n (match inc_mat with None => air | Some m => m end)
                       [omega] ;;
                q <- py_div a b ;;
                Ok (atan q))).
  { intros inc_mat. unfold brewster.
    rewrite (_assert_frequency_passes self lo hi omega Hr Hin).
    reflexivity. }
  assert (Hval : forall inc_mat a b,
             n self [omega] = Ok a ->
             n (match inc_mat with None => air | Some m => m end) [omega]
             = Ok b ->
             b <> 0 ->
             brewster air self omega inc_mat = Ok (atan (a / b))).
  { intros inc_mat a b Ha Hb Hnz. rewrite Hgen, Ha. simpl. rewrite Hb.
    simpl. rewrite (py_div_Ok a b Hnz). reflexivity. }
  split; [exact Hgen | ].
  split; [rewrite !Hgen; reflexivity | ].
  split; [intros inc_mat a b; apply (Hval (Some inc_mat)) | ].
  split; [intros a b; apply (Hval None) | ].
  intros v Hv Hnz. rewrite (Hval (Some self) v v Hv Hv Hnz).
  do 2 f_equal. field. assumption.
Qed.

End Brewster.

Lemma test_material_n_5 : n test_material [5] = Ok 5.
Proof.
  rewrite (n_in_range test_material test_n 1 10 5 eq_refl eq_refl);
    [reflexivity | lra].
Qed.

Lemma brewster_formula_witness :
  brewster test_material test_material 5 (Some test_material)
  = Ok (atan 1).
Proof.
  assert (H5 : 5 <> 0) by lra.
  exact (proj2 (proj2 (proj2 (proj2
           (brewster_formula test_material test_material 5
              test_material_in_range)))) 5 test_material_n_5 H5).
Defined.

(** C8 as stated fails at in-range frequencies.  The incident material
    checks [omega] against its own range, so [brewster(5, narrow_material)]
    on the test material raises the [RangeError] of the incident material;
    and an instance whose dispersion function returns [0], taken as its own
    incident material, raises [ZeroDivisionError] instead of returning
    [atan(1)]. *)
Lemma brewster_raises_in_range :
  (Reachable test_material
   /\ in_range test_material 5
   /\ brewster test_material test_material 5 (Some narrow_material)
      = Raise (RangeError 5 [2; 3]
                 "Angular frequency out of material range"))
  /\ (Reachable zero_material
      /\ in_range zero_material 5
      /\ brewster test_material zero_material 5 (Some zero_material)
         = Raise ZeroDivisionError
      /\ brewster test_material zero_material 5 (Some zero_material)
         <> Ok (atan 1)).
Proof.
  assert (Hin : 1 <= 5 <= 10) by lra.
  assert (Hout : ~ (2 <= 5 <= 3)) by lra.
  assert (Hz : brewster test_material zero_material 5 (Some zero_material)
               = Raise ZeroDivisionError).
  { unfold brewster.
    rewrite (_assert_frequency_passes zero_material 1 10 5 eq_refl Hin).
    cbn [bind].
    rewrite (n_in_range zero_material zero_n 1 10 5 eq_refl eq_refl Hin).
    simpl. rewrite py_div_zero. reflexivity. }
  split.
  - split; [exact test_material_Reachable | ].
    split; [exact test_material_in_range | ].
    unfold brewster.
    rewrite (_assert_frequency_passes test_material 1 10 5 eq_refl Hin).
    cbn [bind]. rewrite test_material_n_5. cbn [bind].
    rewrite (n_out_of_range narrow_material test_n 2 3 5
               eq_refl eq_refl Hout).
    reflexivity.
  - split; [exact zero_material_Reachable | ].
    split; [exists 1, 10; split; [reflexivity | exact Hin] | ].
    split; [exact Hz | ].
    rewrite Hz. discriminate.
Qed.


(* ================================================================= *)
(** ** The loop over the data of an entry *)

(** A type tag cannot open both branches of the loop. *)
Lemma tabulated_not_formula (t : string) :
  startswith t "tabulated n" = true -> startswith t "formula" = false.
Proof.
  unfold startswith. destruct t as [ | a t]; [discriminate | ].
  cbn -[ascii_dec].
  destruct (ascii_dec "t" a) as [<- | _]; [ | discriminate].
  intros _. reflexivity.
Qed.

(** Data of other types are passed over: they only leave their type in
    [self.type_]. *)
Lemma data_loop_passed_over (pre rest : list datum) (vars : locals) :
  Forall passed_over pre ->
  exists vars',
    local_n vars' = local_n vars
    /\ local_range vars' = local_range vars
    /\ data_loop (pre ++ rest)%list vars = data_loop rest vars'.
Proof.
  intros Hpre. revert vars.
  induction Hpre as [ | d pre (t & Ht & Hf & Htab) _ IH]; intros vars.
  - exists vars. repeat split.
  - simpl. rewrite Ht. simpl. rewrite Hf, Htab.
    destruct (IH {| local_type := Some t; local_n := local_n vars;
                    local_range := local_range vars |})
      as (vars' & Hn & Hr & Heq).
    exists vars'. repeat split; assumption.
Qed.

Lemma data_loop_tabulated (d : datum) (post : list datum) (vars : locals)
  (t : string) :
  datum_type d = Some t -> startswith t "tabulated n" = true ->
  data_loop (d :: post) vars
  = (["Tabulated dispersion function"],
     Ok {| local_type := Some t; local_n := local_n vars;
           local_range := local_range vars |}).
Proof.
  intros Ht Htab. simpl. rewrite Ht. simpl.
  rewrite (tabulated_not_formula t Htab), Htab. reflexivity.
Qed.

Lemma data_loop_formula (d : datum) (post : list datum) (vars : locals)
  (t : string) :
  datum_type d = Some t -> startswith t "formula" = true ->
  data_loop (d :: post) vars = ([], analytical d t).
Proof. intros Ht Hf. simpl. rewrite Ht. simpl. rewrite Hf. reflexivity. Qed.

Lemma dispersion_of_formula_unsupported (k : Z) (coefficients : list R) :
  (k < 1 \/ 9 < k)%Z ->
  dispersion_of_formula k coefficients
  = Raise (RangeError (IZR k) [1; 9] "RIID dispersion formula out of range").
Proof.
  intros Hk. unfold dispersion_of_formula.
  repeat match goal with
         | |- context [(k =? ?j)%Z] =>
             destruct (Z.eqb_spec k j) as [E | _]; [lia | ]
         end.
  reflexivity.
Qed.

(** C1, as the code has it.  When the scan meets a datum whose type starts
    with [tabulated n] (the data before it being of other types), it prints
    a note and leaves the loop; no dispersion function has been set, so the
    construction raises the base error, whatever data come after it. *)
Theorem tabulated_stops_scan (db : string) (e : entry)
  (pre post : list datum) (d : datum) (t : string) :
  DATA e = Some (pre ++ d :: post)%list ->
  Forall passed_over pre ->
  datum_type d = Some t ->
  startswith t "tabulated n" = true ->
  RIIDMaterial_init db e
  = (["Tabulated dispersion function"],
     Raise (UltrafastError "No dispersion data found in RIID entry")).
Proof.
  intros Hdata Hpre Ht Htab.
  unfold RIIDMaterial_init, extract_dispersion. rewrite Hdata.
  destruct (data_loop_passed_over pre (d :: post)
              {| local_type := None; local_n := PyNone;
                 local_range := None |} Hpre)
    as (vars' & Hn & _ & ->).
  rewrite (data_loop_tabulated d post vars' t Ht Htab).
  simpl. rewrite Hn. reflexivity.
Qed.

Lemma tabulated_stops_scan_witness :
  RIIDMaterial_init "H2/Leonard.yml" tabulated_then_formula_entry
  = (["Tabulated dispersion function"],
     Raise (UltrafastError "No dispersion data found in RIID entry")).
Proof.
  exact (tabulated_stops_scan "H2/Leonard.yml" tabulated_then_formula_entry
           [] [sellmeier_datum] tabulated_datum "tabulated n"
           eq_refl (Forall_nil _) eq_refl eq_refl).
Defined.

(** C6, as the code has it.  When the first datum the loop takes carries a
    formula tag whose index [k] is outside [[1, 9]] and its range and
    coefficients are read without error, the construction raises
    [RangeError] with [k] as value and [(1, 9)] as valid range. *)
Theorem unsupported_formula_raises_RangeError (db : string) (e : entry)
  (pre post : list datum) (d : datum) (t : string) (k : Z)
  (r coefficients : list R) :
  DATA e = Some (pre ++ d :: post)%list ->
  Forall passed_over pre ->
  datum_type d = Some t ->
  startswith t "formula" = true ->
  formula_index t = Ok k ->
  (k < 1 \/ 9 < k)%Z ->
  parse_range d = Ok r ->
  parse_coefficients d = Ok coefficients ->
  RIIDMaterial_init db e
  = ([], Raise (RangeError (IZR k) [1; 9]
                  "RIID dispersion formula out of range")).
Proof.
  intros Hdata Hpre Ht Hf Hidx Hk Hr Hc.
  unfold RIIDMaterial_init, extract_dispersion. rewrite Hdata.
  destruct (data_loop_passed_over pre (d :: post)
              {| local_type := None; local_n := PyNone;
                 local_range := None |} Hpre)
    as (vars' & _ & _ & ->).
  rewrite (data_loop_formula d post vars' t Ht Hf).
  unfold analytical. rewrite Hr, Hc, Hidx. simpl.
  rewrite (dispersion_of_formula_unsupported k coefficients Hk).
  reflexivity.
Qed.

(* ================================================================= *)
(** ** Reading the example records *)

Lemma float_of_string_decimal (s : string) (d : decimal) (x : R) :
  decimal_of_string s = Some d -> R_of_decimal d = x ->
  float_of_string s = Ok x.
Proof. intros Hd <-. unfold float_of_string. rewrite Hd. reflexivity. Qed.

Lemma float_0 : float_of_string "0" = Ok 0.
Proof.
  apply (float_of_string_decimal _ {| mantissa := 0; exponent := 0 |});
    [reflexivity | unfold R_of_decimal; simpl; lra].
Qed.

Lemma float_1 : float_of_string "1" = Ok 1.
Proof.
  apply (float_of_string_decimal _ {| mantissa := 1; exponent := 0 |});
    [reflexivity | unfold R_of_decimal; simpl; lra].
Qed.

Lemma float_10 : float_of_string "10" = Ok 10.
Proof.
  apply (float_of_string_decimal _ {| mantissa := 10; exponent := 0 |});
    [reflexivity | unfold R_of_decimal; simpl; lra].
Qed.

Lemma float_1_5 : float_of_string "1.5" = Ok 1.5.
Proof.
  apply (float_of_string_decimal _ {| mantissa := 15; exponent := (-1) |});
    [reflexivity | unfold R_of_decimal; simpl; lra].
Qed.

Lemma frequency_1 : frequency 1 = Ok (c * 2 * PI / 1).
Proof. apply _converter_Ok. lra. Qed.

Lemma frequency_10 : frequency 10 = Ok (c * 2 * PI / 10).
Proof. apply _converter_Ok. lra. Qed.

(** The range string [10 1]: the bounds are converted in reverse order. *)
Lemma parse_range_10_1 (d : datum) :
  datum_range d = Some "10 1" ->
  parse_range d = Ok [c * 2 * PI / 1; c * 2 * PI / 10].
Proof.
  intros Hd. unfold parse_range. rewrite Hd.
  cbn [lookup bind].
  change (rev (split "10 1")) with ["1"; "10"].
  cbn [bind comprehension].
  rewrite float_1. cbn [bind]. rewrite frequency_1. cbn [bind].
  rewrite float_10. cbn [bind]. rewrite frequency_10. reflexivity.
Qed.

Lemma parse_coefficients_0_1_1_5 (d : datum) :
  datum_coefficients d = Some "0 1 1.5" ->
  parse_coefficients d = Ok [0; 1; 1.5].
Proof.
  intros Hd. unfold parse_coefficients. rewrite Hd.
  cbn [lookup bind].
  change (split "0 1 1.5") with ["0"; "1"; "1.5"].
  cbn [bind comprehension].
  rewrite float_0. cbn [bind]. rewrite float_1. cbn [bind].
  rewrite float_1_5. reflexivity.
Qed.

Lemma unsupported_formula_raises_RangeError_witness :
  RIIDMaterial_init "BadFormula.yml" bad_formula_entry
  = ([], Raise (RangeError 12 [1; 9]
                  "RIID dispersion formula out of range")).
Proof.
  assert (Hk : (12 < 1 \/ 9 < 12)%Z) by lia.
  exact (unsupported_formula_raises_RangeError "BadFormula.yml"
           bad_formula_entry [] [] bad_formula_datum "formula 12" 12%Z
           [c * 2 * PI / 1; c * 2 * PI / 10] [0; 1; 1.5]
           eq_refl (Forall_nil _) eq_refl eq_refl eq_refl Hk
           (parse_range_10_1 bad_formula_datum eq_refl)
           (parse_coefficients_0_1_1_5 bad_formula_datum eq_refl)).
Defined.

(** C6 as stated fails: the range of the datum is converted before the
    formula index is looked at, so a datum of type [formula 12] whose range
    has a zero bound ends the construction with [ZeroDivisionError]. *)
Lemma unsupported_formula_zero_bound :
  datum_type zero_bound_datum = Some "formula 12"
  /\ formula_index "formula 12" = Ok 12%Z
  /\ RIIDMaterial_init "ZeroBound.yml" zero_bound_entry
     = ([], Raise ZeroDivisionError).
Proof.
  split; [reflexivity | ]. split; [reflexivity | ].
  unfold RIIDMaterial_init, extract_dispersion, zero_bound_entry.
  cbn [DATA].
  rewrite (data_loop_formula zero_bound_datum [] _ "formula 12"
             eq_refl eq_refl).
  unfold analytical, parse_range, zero_bound_datum.
  cbn [datum_range lookup bind].
  change (rev (split "10 0")) with ["0"; "10"].
  cbn [bind comprehension].
  rewrite float_0. cbn [bind]. unfold frequency, _converter.
  rewrite py_div_zero. reflexivity.
Qed.

(* ================================================================= *)
(** ** Formula 1 *)

Lemma range_from_empty (fuel start step : nat) :
  range_from fuel start start step = [].
Proof.
  destruct fuel as [ | fuel]; simpl; [reflexivity | ].
  rewrite Nat.ltb_irrefl. reflexivity.
Qed.

(** The list comprehension of formula 1 cuts the coefficients after the
    first into consecutive pairs. *)
Lemma chunks_pairs (pairs : list (R * R)) :
  forall (pre : list R) (fuel : nat),
    (length pairs <= fuel)%nat ->
    chunks (pre ++ flatten_pairs pairs)%list 2
      (range_from fuel (length pre) (length pre + 2 * length pairs) 2)
    = map (fun p => [fst p; snd p]) pairs.
Proof.
  induction pairs as [ | p pairs IH]; intros pre fuel Hfuel.
  - simpl. rewrite Nat.add_0_r, range_from_empty. reflexivity.
  - destruct fuel as [ | fuel]; [simpl in Hfuel; lia | ].
    simpl length. cbn [range_from].
    replace (length pre <? length pre + 2 * S (length pairs))%nat with true
      by (symmetry; apply Nat.ltb_lt; lia).
    unfold chunks in *. cbn [map]. f_equal.
    + unfold slice.
      replace (length pre + 2 - length pre)%nat with 2%nat by lia.
      rewrite skipn_app, Nat.sub_diag, skipn_all. reflexivity.
    + specialize (IH (pre ++ [fst p; snd p])%list fuel).
      rewrite length_app in IH. simpl length in IH.
      replace (length pre + 2 * S (length pairs))%nat
        with (length pre + 2 + 2 * length pairs)%nat by lia.
      rewrite <- IH by (simpl in Hfuel; lia).
      simpl flatten_pairs. rewrite <- app_assoc. reflexivity.
Qed.

Lemma sellmeier_terms (l : R) (pairs : list (R * R)) :
  Forall (fun p => l ^ 2 - snd p ^ 2 <> 0) pairs ->
  forall acc,
    for_each
      (fun n2 x =>
         x0 <- getitem x 0 ;;
         p <- math_pow l 2 ;;
         q <- math_pow l 2 ;;
         x1 <- getitem x 1 ;;
         r <- math_pow x1 2 ;;
         t <- py_div (x0 * p) (q - r) ;;
         Ok (n2 + t))
      (map (fun p => [fst p; snd p]) pairs) acc
    = Ok (acc + fold_right
                  (fun p s => fst p * l ^ 2 / (l ^ 2 - snd p ^ 2) + s)
                  0 pairs).
Proof.
  match goal with
  | |- _ -> forall acc, for_each ?b _ _ = _ => set (body := b)
  end.
  induction 1 as [ | p pairs Hp _ IH]; intros acc.
  - simpl. f_equal. lra.
  - cbn [map for_each].
    assert (Hbody : body acc [fst p; snd p]
                    = Ok (acc + fst p * l ^ 2 / (l ^ 2 - snd p ^ 2))).
    { unfold body. cbn [getitem nth_error bind]. rewrite !math_pow_2.
      cbn [bind]. rewrite py_div_Ok by assumption. reflexivity. }
    rewrite Hbody. cbn [bind]. rewrite IH. f_equal. cbn [fold_right]. lra.
Qed.

(** Formula 1 on the coefficients [c0, c1, c2, ...], away from its poles:
    the square root of the Sellmeier expression, or a domain error where
    the expression is negative. *)
Lemma formula_1_sellmeier (c0 l : R) (pairs : list (R * R)) :
  Forall (fun p => l ^ 2 - snd p ^ 2 <> 0) pairs ->
  formula_1 (c0 :: flatten_pairs pairs) l
  = math_sqrt (sellmeier_n2 c0 pairs l).
Proof.
  intros Hpoles. unfold formula_1. cbn [getitem nth_error bind].
  unfold py_range.
  assert (Hlen : length (c0 :: flatten_pairs pairs)
                 = (1 + 2 * length pairs)%nat).
  { simpl. f_equal. induction pairs as [ | p ps IHp]; simpl; [reflexivity | ].
    rewrite IHp by (inversion Hpoles; assumption). lia. }
  rewrite Hlen.
  assert (Hchunks := chunks_pairs pairs [c0] (1 + 2 * length pairs)).
  cbn [length app] in Hchunks. rewrite Hchunks by lia.
  rewrite (sellmeier_terms l pairs Hpoles). reflexivity.
Qed.

(* ================================================================= *)
(** ** The Sellmeier record of the specification *)

Lemma sellmeier_bounds_ordered : c * 2 * PI / 10 < c * 2 * PI / 1.
Proof.
  pose proof two_pi_c_positive as Hk. set (k := c * 2 * PI) in *. lra.
Qed.

Lemma sellmeier_init (db : string) (e : entry) (pre post : list datum) :
  DATA e = Some (pre ++ sellmeier_datum :: post)%list ->
  Forall passed_over pre ->
  RIIDMaterial_init db e
  = ([], Ok (sellmeier_material db (REFERENCES e) (COMMENTS e))).
Proof.
  intros Hdata Hpre.
  unfold RIIDMaterial_init, extract_dispersion. rewrite Hdata.
  destruct (data_loop_passed_over pre (sellmeier_datum :: post)
              {| local_type := None; local_n := PyNone;
                 local_range := None |} Hpre)
    as (vars' & _ & _ & ->).
  rewrite (data_loop_formula sellmeier_datum post vars' "formula 1"
             eq_refl eq_refl).
  unfold analytical.
  rewrite (parse_range_10_1 sellmeier_datum eq_refl).
  rewrite (parse_coefficients_0_1_1_5 sellmeier_datum eq_refl).
  change (formula_index "formula 1") with (Ok 1%Z).
  cbn [bind]. unfold dispersion_of_formula.
  change (1 =? 1)%Z with true.
  cbn [bind is_None local_n local_type local_range].
  unfold Material_init, set_n, set_range_.
  cbn [callable bind length Nat.eqb negb getitem nth_error].
  pose proof sellmeier_bounds_ordered as Hord.
  destruct (Rgt_dec (c * 2 * PI / 1) (c * 2 * PI / 10)) as [_ | N];
    [reflexivity | exfalso; apply N; exact Hord].
Qed.

(** In the range of the Sellmeier material the frequency is positive and
    the wavelength lies between [1] and [10]. *)
Lemma sellmeier_wavelength (db : string) (refs com : option string)
  (omega : R) :
  in_range (sellmeier_material db refs com) omega ->
  omega <> 0
  /\ wavelength omega = Ok (c * 2 * PI / omega)
  /\ 1 <= c * 2 * PI / omega <= 10.
Proof.
  intros (lo & hi & Hr & Hin). simpl in Hr. injection Hr as <- <-.
  pose proof two_pi_c_positive as Hk. set (k := c * 2 * PI) in *.
  assert (Hw : 0 < omega) by lra.
  assert (Hnz : omega <> 0) by lra.
  split; [exact Hnz | ].
  split; [apply _converter_Ok; exact Hnz | ].
  split.
  - apply Rmult_le_reg_r with omega; [exact Hw | ].
    replace (k / omega * omega) with k by (field; exact Hnz). lra.
  - apply Rmult_le_reg_r with omega; [exact Hw | ].
    replace (k / omega * omega) with k by (field; exact Hnz). lra.
Qed.

(** What [n] does on the Sellmeier material at an in-range frequency whose
    wavelength [l] is not the pole. *)
Lemma sellmeier_n (db : string) (refs com : option string) (omega l : R) :
  in_range (sellmeier_material db refs com) omega ->
  wavelength omega = Ok l ->
  l ^ 2 <> 1.5 ^ 2 ->
  n (sellmeier_material db refs com) [omega]
  = math_sqrt (sellmeier_n2 0 [(1, 1.5)] l).
Proof.
  intros Hin Hl Hpole.
  destruct (sellmeier_wavelength db refs com omega Hin) as (Hnz & Hw & _).
  destruct Hin as (lo & hi & Hr & Hin).
  rewrite (n_in_range (sellmeier_material db refs com)
             (frequency_wrap (formula_1 [0; 1; 1.5])) lo hi omega
             eq_refl Hr Hin).
  unfold frequency_wrap. rewrite Hl. cbn [bind].
  apply (formula_1_sellmeier 0 l [(1, 1.5)]).
  constructor; [simpl fst; simpl snd; lra | constructor].
Qed.

(** C5, as the code has it.  From an entry whose first datum taken has type
    [formula 1], range [10 1] and coefficients [0 1 1.5], the construction
    succeeds; the bounds of the range are converted in reverse order and
    the stored range is [(frequency(10), frequency(1))], in ascending
    order; and at every in-range [omega] whose wavelength [l] is not the
    pole ([l^2 <> 1.5^2]) and makes the Sellmeier expression non-negative,
    [n(omega)] is the square root of that expression at [l]. *)
Theorem sellmeier_record (db : string) (e : entry) (pre post : list datum) :
  DATA e = Some (pre ++ sellmeier_datum :: post)%list ->
  Forall passed_over pre ->
  exists m,
    RIIDMaterial_init db e = ([], Ok m)
    /\ (exists f1 f10,
           frequency 1 = Ok f1 /\ frequency 10 = Ok f10
           /\ parse_range sellmeier_datum = Ok [f1; f10]
           /\ _range_ m = Some [f10; f1]
           /\ f10 <= f1)
    /\ forall omega,
         in_range m omega ->
         exists l,
           wavelength omega = Ok l
           /\ (l ^ 2 <> 1.5 ^ 2 ->
               0 <= sellmeier_n2 0 [(1, 1.5)] l ->
               n m [omega] = Ok (sqrt (sellmeier_n2 0 [(1, 1.5)] l))).
Proof.
  intros Hdata Hpre.
  exists (sellmeier_material db (REFERENCES e) (COMMENTS e)).
  split; [exact (sellmeier_init db e pre post Hdata Hpre) | ].
  split.
  - exists (c * 2 * PI / 1), (c * 2 * PI / 10).
    split; [exact frequency_1 | ].
    split; [exact frequency_10 | ].
    split; [exact (parse_range_10_1 sellmeier_datum eq_refl) | ].
    split; [reflexivity | ].
    pose proof sellmeier_bounds_ordered. lra.
  - intros omega Hin.
    destruct (sellmeier_wavelength _ _ _ omega Hin) as (_ & Hw & _).
    exists (c * 2 * PI / omega). split; [exact Hw | ].
    intros Hpole Hpos.
    rewrite (sellmeier_n _ _ _ omega _ Hin Hw Hpole).
    apply math_sqrt_Ok. exact Hpos.
Qed.

Lemma wavelength_of_frequency (l : R) :
  l <> 0 -> wavelength (c * 2 * PI / l) = Ok l.
Proof.
  intros Hl. unfold wavelength.
  rewrite _converter_Ok by (apply _converter_nonzero; exact Hl).
  f_equal. apply _converter_involutive. exact Hl.
Qed.

Lemma sellmeier_in_range (db : string) (refs com : option string) (l : R) :
  1 <= l <= 10 -> in_range (sellmeier_material db refs com) (c * 2 * PI / l).
Proof.
  intros [Hlo Hhi]. exists (c * 2 * PI / 10), (c * 2 * PI / 1).
  split; [reflexivity | ].
  pose proof two_pi_c_positive as Hk. set (k := c * 2 * PI) in *.
  unfold Rdiv. split.
  - apply Rmult_le_compat_l; [lra | ].
    apply Rinv_le_contravar; lra.
  - apply Rmult_le_compat_l; [lra | ].
    apply Rinv_le_contravar; lra.
Qed.

Lemma sellmeier_record_witness :
  exists m,
    RIIDMaterial_init "Sellmeier.yml" sellmeier_entry = ([], Ok m)
    /\ n m [c * 2 * PI / 2] = Ok (sqrt (sellmeier_n2 0 [(1, 1.5)] 2)).
Proof.
  destruct (sellmeier_record "Sellmeier.yml" sellmeier_entry [] []
              eq_refl (Forall_nil _)) as (m & Hinit & _ & Hn).
  exists m. split; [exact Hinit | ].
  assert (Hm : m = sellmeier_material "Sellmeier.yml" None None).
  { rewrite (sellmeier_init "Sellmeier.yml" sellmeier_entry [] []
               eq_refl (Forall_nil _)) in Hinit.
    injection Hinit as <-. reflexivity. }
  assert (Hin : in_range m (c * 2 * PI / 2))
    by (rewrite Hm; apply sellmeier_in_range; lra).
  destruct (Hn (c * 2 * PI / 2) Hin) as (l & Hl & Hval).
  assert (H2 : 2 <> 0) by lra.
  rewrite (wavelength_of_frequency 2 H2) in Hl. injection Hl as <-.
  apply Hval; unfold sellmeier_n2; simpl; lra.
Defined.

(** C5 as stated fails: the frequency whose wavelength is [1.25] lies in
    the stored range, and there the Sellmeier expression of the record is
    negative, so that [n] raises [ValueError] instead of returning a square
    root. *)
Lemma sellmeier_negative_radicand :
  RIIDMaterial_init "Sellmeier.yml" sellmeier_entry
  = ([], Ok (sellmeier_material "Sellmeier.yml" None None))
  /\ in_range (sellmeier_material "Sellmeier.yml" None None)
       (c * 2 * PI / 1.25)
  /\ wavelength (c * 2 * PI / 1.25) = Ok 1.25
  /\ sellmeier_n2 0 [(1, 1.5)] 1.25 < 0
  /\ n (sellmeier_material "Sellmeier.yml" None None) [c * 2 * PI / 1.25]
     = Raise ValueError.
Proof.
  assert (Hnz : 1.25 <> 0) by lra.
  assert (Hin : in_range (sellmeier_material "Sellmeier.yml" None None)
                  (c * 2 * PI / 1.25))
    by (apply sellmeier_in_range; lra).
  assert (Hl : wavelength (c * 2 * PI / 1.25) = Ok 1.25)
    by (apply wavelength_of_frequency; exact Hnz).
  assert (Hneg : sellmeier_n2 0 [(1, 1.5)] 1.25 < 0)
    by (unfold sellmeier_n2; simpl; lra).
  split; [exact (sellmeier_init "Sellmeier.yml" sellmeier_entry [] []
                   eq_refl (Forall_nil _)) | ].
  split; [exact Hin | ]. split; [exact Hl | ]. split; [exact Hneg | ].
  rewrite (sellmeier_n "Sellmeier.yml" None None _ 1.25 Hin Hl) by lra.
  apply math_sqrt_negative. exact Hneg.
Qed.

(** C1 as stated fails: a supported formula datum that comes after a
    [tabulated n] datum is never looked at, and the construction raises the
    base error, although the formula datum alone gives an instance. *)
Lemma tabulated_then_formula_fails :
  RIIDMaterial_init "H2/Leonard.yml" tabulated_then_formula_entry
  = (["Tabulated dispersion function"],
     Raise (UltrafastError "No dispersion data found in RIID entry"))
  /\ RIIDMaterial_init "H2/Leonard.yml" sellmeier_entry
     = ([], Ok (sellmeier_material "H2/Leonard.yml" None None)).
Proof.
  split.
  - reflexivity.
  - exact (sellmeier_init "H2/Leonard.yml" sellmeier_entry [] []
             eq_refl (Forall_nil _)).
Qed.

(* ================================================================= *)
(** ** Further properties of [Material] *)

(** The swap of the [range_] setter leaves the smaller bound first. *)
Lemma normalised_pair (a b : R) :
  (if Rgt_dec a b then [b; a] else [a; b]) = [Rmin a b; Rmax a b].
Proof.
  unfold Rmin, Rmax.
  destruct (Rgt_dec a b) as [G | G], (Rle_dec a b) as [L | L];
    try reflexivity; lra.
Qed.

Lemma set_range__pair (self : Material) (a b : R) :
  set_range_ self (Some [a; b])
  = Ok (with_range self [Rmin a b; Rmax a b]).
Proof.
  unfold set_range_. cbn [length Nat.eqb negb getitem nth_error bind].
  rewrite <- normalised_pair.
  destruct (Rgt_dec a b); reflexivity.
Qed.

Lemma n_no_argument (self : Material) (value : callable_t) :
  _n self = Some value -> n self [] = Raise IndexError.
Proof. intros Hn. unfold n. rewrite Hn. reflexivity. Qed.

Lemma n_first_argument (self : Material) (value : callable_t)
  (lo hi omega : R) (rest : list R) :
  _n self = Some value -> _range_ self = Some [lo; hi] ->
  (lo <= omega <= hi -> n self (omega :: rest) = value (omega :: rest))
  /\ (~ (lo <= omega <= hi) ->
      n self (omega :: rest)
      = Raise (RangeError omega [lo; hi] out_of_range_message)).
Proof.
  intros Hn Hr. unfold n. rewrite Hn. cbn [getitem nth_error bind]. split.
  - intros Hin.
    rewrite (_assert_frequency_passes self lo hi omega Hr Hin). reflexivity.
  - intros Hout.
    rewrite (_assert_frequency_raises self lo hi omega Hr Hout). reflexivity.
Qed.

(** X1.  The closure installed by the [n] setter guards the function it
    wraps: called without argument it raises [IndexError]; whenever it
    returns a value, its first argument lies in the stored range and the
    value is what the wrapped function returns on the same arguments, all
    of which are handed on. *)
Theorem n_returns_only_in_range (self : Material) (lo hi : R) :
  Reachable self -> _range_ self = Some [lo; hi] ->
  n self [] = Raise IndexError
  /\ forall args v,
       n self args = Ok v ->
       exists value omega rest,
         _n self = Some value /\ args = omega :: rest
         /\ lo <= omega <= hi /\ value args = Ok v.
Proof.
  intros Hreach Hr.
  destruct (Reachable_well_formed self Hreach) as [[value Hn] _].
  split; [exact (n_no_argument self value Hn) | ].
  intros args v Hv. destruct args as [ | omega rest].
  - rewrite (n_no_argument self value Hn) in Hv. discriminate.
  - destruct (n_first_argument self value lo hi omega rest Hn Hr)
      as [Hin Hout].
    destruct (Rle_dec lo omega) as [Hlo | Hlo];
      [destruct (Rle_dec omega hi) as [Hhi | Hhi] | ].
    + exists value, omega, rest. rewrite Hin in Hv by (split; assumption).
      repeat split; assumption.
    + rewrite Hout in Hv by lra. discriminate.
    + rewrite Hout in Hv by lra. discriminate.
Qed.

Lemma n_returns_only_in_range_witness :
  exists value omega rest,
    _n test_material = Some value /\ [5] = omega :: rest
    /\ 1 <= omega <= 10 /\ value [5] = Ok 5.
Proof.
  exact (proj2 (n_returns_only_in_range test_material 1 10
                  test_material_Reachable eq_refl) [5] 5 test_material_n_5).
Defined.

(** X2.  [Material.__init__] on a sequence as range succeeds exactly when
    the function is callable and the sequence has two elements; the
    instance then holds the function, the two bounds smaller first and
    the metadata given, and keeps nothing else of what [self] held but
    [type_]. *)
Theorem Material_init_succeeds_iff (self : Material) (n0 : pyobj)
  (value : list R) (nm refs com : option string) (m : Material) :
  Material_init self n0 (Some value) nm refs com = Ok m
  <-> exists f a b,
        n0 = PyCallable f /\ value = [a; b]
        /\ m = {| name := nm; _range_ := Some [Rmin a b; Rmax a b];
                  references := refs; comments := com; _n := Some f;
                  type_ := type_ self |}.
Proof.
  split.
  - intros H. apply Material_init_inv in H as (f & a & b & -> & E & ->).
    injection E as ->. exists f, a, b. rewrite normalised_pair.
    repeat split.
  - intros (f & a & b & -> & -> & ->).
    unfold Material_init, set_n. cbn [callable bind].
    rewrite set_range__pair. reflexivity.
Qed.

Lemma Material_init_succeeds_iff_witness :
  Material_init blank (PyCallable test_n) (Some [10; 1]) None None None
  = Ok {| name := None; _range_ := Some [Rmin 10 1; Rmax 10 1];
          references := None; comments := None; _n := Some test_n;
          type_ := None |}.
Proof.
  apply (proj2 (Material_init_succeeds_iff blank (PyCallable test_n)
                  [10; 1] None None None _)).
  exists test_n, 10, 1. repeat split.
Defined.

(** X3.  Assigning a new callable to [n] wraps it like the first one: the
    stored range is kept, the new function is the one called inside the
    range, and outside the range the call still raises [RangeError]. *)
Theorem set_n_rewraps (self : Material) (f : callable_t) (lo hi : R) :
  _range_ self = Some [lo; hi] ->
  exists self',
    set_n self (PyCallable f) = Ok self'
    /\ _range_ self' = Some [lo; hi]
    /\ (forall omega, lo <= omega <= hi -> n self' [omega] = f [omega])
    /\ (forall omega,
           ~ (lo <= omega <= hi) ->
           n self' [omega]
           = Raise (RangeError omega [lo; hi]
                      "Angular frequency out of material range")).
Proof.
  intros Hr. exists (with_n self f).
  split; [reflexivity | ]. split; [exact Hr | ].
  split; intros omega H.
  - exact (proj1 (n_first_argument (with_n self f) f lo hi omega []
                    eq_refl Hr) H).
  - exact (proj2 (n_first_argument (with_n self f) f lo hi omega []
                    eq_refl Hr) H).
Qed.

Lemma set_n_rewraps_witness :
  exists self',
    set_n test_material (PyCallable zero_n) = Ok self'
    /\ n self' [5] = Ok 0.
Proof.
  destruct (set_n_rewraps test_material zero_n 1 10 eq_refl)
    as (self' & Hset & _ & Hin & _).
  exists self'. split; [exact Hset | ].
  assert (H5 : 1 <= 5 <= 10) by lra.
  rewrite (Hin 5 H5). reflexivity.
Defined.

(** X4.  Assigning a pair [(a, b)] to [range_] always succeeds and changes
    the range alone: the function and the other attributes stay, and from
    then on [n] calls the function exactly on
    [[min(a, b), max(a, b)]], raising [RangeError] with that interval
    elsewhere. *)
Theorem set_range__revalidates (self : Material) (value : callable_t)
  (a b : R) :
  _n self = Some value ->
  exists self',
    set_range_ self (Some [a; b]) = Ok self'
    /\ _range_ self' = Some [Rmin a b; Rmax a b]
    /\ _n self' = Some value
    /\ name self' = name self /\ references self' = references self
    /\ comments self' = comments self /\ type_ self' = type_ self
    /\ (forall omega,
           Rmin a b <= omega <= Rmax a b -> n self' [omega] = value [omega])
    /\ (forall omega,
           ~ (Rmin a b <= omega <= Rmax a b) ->
           n self' [omega]
           = Raise (RangeError omega [Rmin a b; Rmax a b]
                      "Angular frequency out of material range")).
Proof.
  intros Hn. exists (with_range self [Rmin a b; Rmax a b]).
  split; [apply set_range__pair | ].
  repeat (split; [first [reflexivity | exact Hn] | ]).
  split; intros omega H.
  - exact (proj1 (n_first_argument
                    (with_range self [Rmin a b; Rmax a b]) value
                    (Rmin a b) (Rmax a b) omega [] Hn eq_refl) H).
  - exact (proj2 (n_first_argument
                    (with_range self [Rmin a b; Rmax a b]) value
                    (Rmin a b) (Rmax a b) omega [] Hn eq_refl) H).
Qed.

Lemma set_range__revalidates_witness :
  exists self',
    set_range_ test_material (Some [3; 2]) = Ok self'
    /\ _range_ self' = Some [Rmin 3 2; Rmax 3 2].
Proof.
  destruct (set_range__revalidates test_material test_n 3 2 eq_refl)
    as (self' & Hset & Hr & _).
  exists self'. split; assumption.
Defined.

(* ================================================================= *)
(** ** Further properties of the converters and of the derived
       quantities *)

(** X5.  [_converter], and with it [frequency] and [wavelength], raises
    [ZeroDivisionError] at [0] and nowhere else; on another argument [x]
    its result [y] satisfies [x * y = 2 pi c], so that it is never zero and
    has the sign of [x]. *)
Theorem _converter_domain (x : R) :
  (x = 0 ->
   _converter x = Raise ZeroDivisionError
   /\ frequency x = Raise ZeroDivisionError
   /\ wavelength x = Raise ZeroDivisionError)
  /\ (x <> 0 ->
      exists y,
        _converter x = Ok y /\ frequency x = Ok y /\ wavelength x = Ok y
        /\ x * y = 2 * PI * c /\ y <> 0
        /\ (0 < x -> 0 < y) /\ (x < 0 -> y < 0)).
Proof.
  split.
  - intros ->. unfold frequency, wavelength, _converter.
    rewrite py_div_zero. repeat split.
  - intros Hx. exists (c * 2 * PI / x).
    pose proof two_pi_c_positive as Hk.
    unfold frequency, wavelength. rewrite (_converter_Ok x Hx).
    split; [reflexivity | ]. split; [reflexivity | ].
    split; [reflexivity | ].
    split; [field; exact Hx | ].
    split; [apply _converter_nonzero; exact Hx | ].
    set (k := c * 2 * PI) in *. split; intros Hs.
    + apply Rdiv_lt_0_compat; assumption.
    + unfold Rdiv. replace (k * / x) with (- (k * / - x))
        by (field; exact Hx).
      assert (0 < k * / - x)
        by (apply Rmult_lt_0_compat; [ | apply Rinv_0_lt_compat]; lra).
      lra.
Qed.

Lemma _converter_domain_witness :
  _converter 0 = Raise ZeroDivisionError
  /\ exists y, frequency 1 = Ok y /\ 1 * y = 2 * PI * c.
Proof.
  assert (H1 : 1 <> 0) by lra.
  split.
  - exact (proj1 (proj1 (_converter_domain 0) eq_refl)).
  - destruct (proj2 (_converter_domain 1) H1) as (y & _ & Hf & _ & Hy & _).
    exists y. split; assumption.
Defined.

(** X6.  On positive arguments the conversion reverses the order: a longer
    wavelength has the smaller angular frequency (and the other way
    round), which is why the wavelength bounds of a database range are
    read in reverse. *)
Theorem frequency_order_reversing (l1 l2 w1 w2 : R) :
  0 < l1 -> l1 < l2 ->
  frequency l1 = Ok w1 -> frequency l2 = Ok w2 ->
  0 < w2 /\ w2 < w1.
Proof.
  intros H1 H12 Hw1 Hw2. unfold frequency in *.
  rewrite _converter_Ok in Hw1 by lra. rewrite _converter_Ok in Hw2 by lra.
  injection Hw1 as <-. injection Hw2 as <-.
  pose proof two_pi_c_positive as Hk. set (k := c * 2 * PI) in *.
  split.
  - apply Rdiv_lt_0_compat; lra.
  - unfold Rdiv. apply Rmult_lt_compat_l; [exact Hk | ].
    apply Rinv_lt_contravar; [apply Rmult_lt_0_compat; lra | exact H12].
Qed.

Lemma frequency_order_reversing_witness :
  0 < c * 2 * PI / 10 /\ c * 2 * PI / 10 < c * 2 * PI / 1.
Proof.
  assert (H1 : 0 < 1) by lra. assert (H2 : 1 < 10) by lra.
  exact (frequency_order_reversing 1 10 _ _ H1 H2 frequency_1 frequency_10).
Defined.

Section Angles.

Variable air : Material.

Lemma brewster_inv (self : Material) (omega theta : R)
  (inc_mat : option Material) :
  brewster air self omega inc_mat = Ok theta ->
  exists a b,
    _assert_frequency self omega = Ok tt
    /\ n self [omega] = Ok a
    /\ n (match inc_mat with None => air | Some m => m end) [omega] = Ok b
    /\ b <> 0 /\ theta = atan (a / b).
Proof.
  unfold brewster. intros H.
  destruct (_assert_frequency self omega) as [[] | e]; [ | discriminate].
  cbn [bind] in H.
  destruct (n self [omega]) as [a | e]; [ | discriminate]. cbn [bind] in H.
  destruct (n (match inc_mat with None => air | Some m => m end) [omega])
    as [b | e]; [ | discriminate].
  cbn [bind] in H. unfold py_div in H.
  destruct (Req_dec_T b 0) as [E | N]; [discriminate | ].
  cbn [bind] in H. injection H as <-.
  exists a, b. repeat split; assumption.
Qed.

(** X7.  Whenever [brewster] returns an angle [theta], both indices were
    obtained and Brewster's law holds for them,
    [tan(theta) * n_incident = n]; the angle lies strictly between
    [-pi/2] and [pi/2], and strictly between [0] and [pi/2] when both
    indices are positive. *)
Theorem brewster_law (self : Material) (omega theta : R)
  (inc_mat : option Material) :
  brewster air self omega inc_mat = Ok theta ->
  exists a b,
    n self [omega] = Ok a
    /\ n (match inc_mat with None => air | Some m => m end) [omega] = Ok b
    /\ tan theta * b = a
    /\ - PI / 2 < theta < PI / 2
    /\ (0 < a -> 0 < b -> 0 < theta).
Proof.
  intros H. apply brewster_inv in H as (a & b & _ & Ha & Hb & Hnz & ->).
  exists a, b. split; [exact Ha | ]. split; [exact Hb | ].
  split; [rewrite tan_atan; field; exact Hnz | ].
  split; [apply atan_bound | ].
  intros Hpa Hpb. rewrite <- atan_0. apply atan_increasing.
  apply Rdiv_lt_0_compat; assumption.
Qed.

(** X8.  The Brewster angles of an interface seen from its two sides are
    complementary: for two instances whose ranges both hold [omega] and
    whose indices there are positive, [brewster] returns in both
    directions and the two angles add up to [pi/2]. *)
Theorem brewster_complementary (m1 m2 : Material) (omega a b : R) :
  in_range m1 omega -> in_range m2 omega ->
  n m1 [omega] = Ok a -> n m2 [omega] = Ok b ->
  0 < a -> 0 < b ->
  exists t1 t2,
    brewster air m1 omega (Some m2) = Ok t1
    /\ brewster air m2 omega (Some m1) = Ok t2
    /\ t1 + t2 = PI / 2.
Proof.
  intros (lo1 & hi1 & Hr1 & Hin1) (lo2 & hi2 & Hr2 & Hin2) Ha Hb Hpa Hpb.
  exists (atan (a / b)), (atan (b / a)).
  unfold brewster.
  rewrite (_assert_frequency_passes m1 lo1 hi1 omega Hr1 Hin1).
  rewrite (_assert_frequency_passes m2 lo2 hi2 omega Hr2 Hin2).
  cbn [bind]. rewrite Ha, Hb. cbn [bind].
  rewrite (py_div_Ok a b) by lra. rewrite (py_div_Ok b a) by lra.
  split; [reflexivity | ]. split; [reflexivity | ].
  replace (b / a) with (/ (a / b)) by (field; split; lra).
  rewrite atan_inv by (apply Rdiv_lt_0_compat; assumption). lra.
Qed.

End Angles.

Lemma brewster_law_witness :
  exists a b,
    n test_material [5] = Ok a /\ n test_material [5] = Ok b
    /\ tan (atan 1) * b = a.
Proof.
  assert (H5 : 5 <> 0) by lra.
  assert (Hb : brewster test_material test_material 5 (Some test_material)
               = Ok (atan 1)).
  { unfold brewster.
    rewrite (_assert_frequency_passes test_material 1 10 5 eq_refl)
      by lra.
    cbn [bind]. rewrite test_material_n_5. cbn [bind].
    rewrite (py_div_Ok 5 5 H5). cbn [bind]. do 2 f_equal. field. }
  destruct (brewster_law test_material test_material 5 (atan 1)
              (Some test_material) Hb) as (a & b & Ha & Hb' & Hlaw & _).
  exists a, b. repeat split; assumption.
Defined.

Lemma brewster_complementary_witness :
  exists t1 t2,
    brewster test_material test_material 5 (Some test_material) = Ok t1
    /\ brewster test_material test_material 5 (Some test_material) = Ok t2
    /\ t1 + t2 = PI / 2.
Proof.
  assert (H5 : 0 < 5) by lra.
  exact (brewster_complementary test_material test_material test_material
           5 5 5 test_material_in_range test_material_in_range
           test_material_n_5 test_material_n_5 H5 H5).
Defined.

(** X9.  Wavevector and wavelength: at a non-zero in-range [omega] where
    the index is [v], [wavevector(omega)] is [2 pi v] divided by
    [wavelength(omega)]. *)
Theorem wavevector_wavelength (self : Material) (omega v : R) :
  in_range self omega -> n self [omega] = Ok v -> omega <> 0 ->
  exists k l,
    wavevector self omega = Ok k /\ wavelength omega = Ok l
    /\ l <> 0 /\ k = 2 * PI * v / l.
Proof.
  intros (lo & hi & Hr & Hin) Hv Hnz.
  exists (omega * v / c), (c * 2 * PI / omega).
  pose proof c_positive as Hc. pose proof PI_RGT_0 as Hp.
  unfold wavevector, wavelength.
  rewrite (_assert_frequency_passes self lo hi omega Hr Hin).
  cbn [bind]. rewrite Hv. cbn [bind].
  rewrite py_div_Ok by lra. rewrite (_converter_Ok omega Hnz).
  split; [reflexivity | ]. split; [reflexivity | ].
  split; [apply _converter_nonzero; exact Hnz | ].
  field. repeat split; lra.
Qed.

Lemma wavevector_wavelength_witness :
  exists k l,
    wavevector test_material 5 = Ok k /\ wavelength 5 = Ok l
    /\ l <> 0 /\ k = 2 * PI * 5 / l.
Proof.
  assert (H5 : 5 <> 0) by lra.
  exact (wavevector_wavelength test_material 5 5 test_material_in_range
           test_material_n_5 H5).
Defined.

(* ================================================================= *)
(** ** Further properties of the constructor of [RIIDMaterial] *)

Lemma dispersion_of_formula_supported (k : Z) (cs : list R) :
  (1 <= k <= 9)%Z ->
  dispersion_of_formula k cs = Ok (frequency_wrap (formula_of k cs)).
Proof.
  intros Hk. unfold dispersion_of_formula, formula_of.
  repeat match goal with
         | |- context [(k =? ?j)%Z] =>
             destruct (Z.eqb_spec k j) as [? | ?]; [reflexivity | ]
         end.
  lia.
Qed.

Lemma dispersion_of_formula_inv (k : Z) (cs : list R) (f : callable_t) :
  dispersion_of_formula k cs = Ok f ->
  (1 <= k <= 9)%Z /\ f = frequency_wrap (formula_of k cs).
Proof.
  intros H.
  assert (Hk : (1 <= k <= 9)%Z).
  { destruct (Z_le_dec 1 k) as [L1 | L1];
      [destruct (Z_le_dec k 9) as [L9 | L9]; [lia | ] | ];
      rewrite dispersion_of_formula_unsupported in H by lia; discriminate. }
  split; [exact Hk | ].
  rewrite (dispersion_of_formula_supported k cs Hk) in H.
  injection H as <-. reflexivity.
Qed.

(** What the branch for an analytical dispersion returns when it
    returns. *)
Lemma analytical_inv (d : datum) (t : string) (vars : locals) :
  analytical d t = Ok vars ->
  exists r cs k,
    parse_range d = Ok r /\ parse_coefficients d = Ok cs
    /\ formula_index t = Ok k /\ (1 <= k <= 9)%Z
    /\ vars = {| local_type := Some t;
                 local_n := PyCallable (frequency_wrap (formula_of k cs));
                 local_range := Some r |}.
Proof.
  unfold analytical. intros H.
  destruct (parse_range d) as [r | e]; [ | discriminate]. cbn [bind] in H.
  destruct (parse_coefficients d) as [cs | e]; [ | discriminate].
  cbn [bind] in H.
  destruct (formula_index t) as [k | e]; [ | discriminate]. cbn [bind] in H.
  destruct (dispersion_of_formula k cs) as [f | e] eqn:Hf; [ | discriminate].
  cbn [bind] in H. injection H as <-.
  apply dispersion_of_formula_inv in Hf as [Hk ->].
  exists r, cs, k. repeat split; first [reflexivity | apply Hk].
Qed.

(** The constructor on an entry whose first datum taken is a formula
    datum: the base constructor applied to what the branch returns. *)
Lemma RIIDMaterial_init_formula (db : string) (e : entry)
  (pre post : list datum) (d : datum) (t : string) :
  DATA e = Some (pre ++ d :: post)%list ->
  Forall passed_over pre ->
  datum_type d = Some t ->
  startswith t "formula" = true ->
  RIIDMaterial_init db e
  = ([],
     vars <- analytical d t ;;
     Material_init (with_type blank t) (local_n vars) (local_range vars)
       (Some db) (REFERENCES e) (COMMENTS e)).
Proof.
  intros Hdata Hpre Ht Hf.
  unfold RIIDMaterial_init, extract_dispersion. rewrite Hdata.
  destruct (data_loop_passed_over pre (d :: post)
              {| local_type := None; local_n := PyNone;
                 local_range := None |} Hpre)
    as (vars' & _ & _ & ->).
  rewrite (data_loop_formula d post vars' t Ht Hf).
  destruct (analytical d t) as [vars | err] eqn:Ha; [ | reflexivity].
  apply analytical_inv in Ha as (r & cs & k & _ & _ & _ & _ & ->).
  reflexivity.
Qed.

(** The constructor on a well-formed formula datum. *)
Lemma RIIDMaterial_init_supported (db : string) (e : entry)
  (pre post : list datum) (d : datum) (t : string) (k : Z)
  (cs : list R) (r1 r2 : R) :
  DATA e = Some (pre ++ d :: post)%list ->
  Forall passed_over pre ->
  datum_type d = Some t ->
  startswith t "formula" = true ->
  formula_index t = Ok k -> (1 <= k <= 9)%Z ->
  parse_range d = Ok [r1; r2] ->
  parse_coefficients d = Ok cs ->
  RIIDMaterial_init db e = ([], Ok (riid_material db e t k cs r1 r2)).
Proof.
  intros Hdata Hpre Ht Hf Hidx Hk Hr Hc.
  rewrite (RIIDMaterial_init_formula db e pre post d t Hdata Hpre Ht Hf).
  unfold analytical. rewrite Hr, Hc, Hidx. cbn [bind].
  rewrite (dispersion_of_formula_supported k cs Hk).
  cbn [bind local_n local_range].
  unfold Material_init, set_n. cbn [callable bind].
  rewrite set_range__pair. reflexivity.
Qed.

(** X10.  An entry without the key [DATA] leaves the constructor with no
    dispersion function at all: the base constructor is called on [None]
    and raises [PropertySetError] for the property [n], not the error of
    the module for missing dispersion data. *)
Theorem no_DATA_raises_PropertySetError (db : string) (e : entry) :
  DATA e = None ->
  RIIDMaterial_init db e
  = ([], Raise (PropertySetError "n"
                  "Refractive index function is not callable")).
Proof.
  intros Hdata. unfold RIIDMaterial_init, extract_dispersion.
  rewrite Hdata. reflexivity.
Qed.

Lemma no_DATA_raises_PropertySetError_witness :
  RIIDMaterial_init "Ciddor.yml" empty_entry
  = ([], Raise (PropertySetError "n"
                  "Refractive index function is not callable")).
Proof.
  exact (no_DATA_raises_PropertySetError "Ciddor.yml" empty_entry eq_refl).
Defined.

(** X11.  When the key [DATA] is there and no datum under it has a type
    starting with [formula] or [tabulated n] (an empty list included), the
    constructor prints nothing and raises the base [UltrafastError]. *)
Theorem no_dispersion_raises_UltrafastError (db : string) (e : entry)
  (data : list datum) :
  DATA e = Some data ->
  Forall passed_over data ->
  RIIDMaterial_init db e
  = ([], Raise (UltrafastError "No dispersion data found in RIID entry")).
Proof.
  intros Hdata Hall. unfold RIIDMaterial_init, extract_dispersion.
  rewrite Hdata.
  destruct (data_loop_passed_over data []
              {| local_type := None; local_n := PyNone;
                 local_range := None |} Hall)
    as (vars' & Hn & _ & Heq).
  rewrite app_nil_r in Heq. rewrite Heq. cbn [data_loop bind].
  rewrite Hn. reflexivity.
Qed.

Lemma extinction_datum_passed_over : passed_over extinction_datum.
Proof. exists "tabulated k". repeat split. Qed.

Lemma no_dispersion_raises_UltrafastError_witness :
  RIIDMaterial_init "BadType.yml" (entry_of extinction_datum)
  = ([], Raise (UltrafastError "No dispersion data found in RIID entry")).
Proof.
  exact (no_dispersion_raises_UltrafastError "BadType.yml"
           (entry_of extinction_datum) [extinction_datum] eq_refl
           (Forall_cons _ extinction_datum_passed_over (Forall_nil _))).
Defined.

(** X12.  A missing key is a [KeyError] naming it: a datum reached by the
    loop without [type]; a formula datum without [range]; a formula datum
    whose range is read but that has no [coefficients]. *)
Theorem missing_key_raises_KeyError (db : string) (e : entry)
  (pre post : list datum) (d : datum) :
  DATA e = Some (pre ++ d :: post)%list ->
  Forall passed_over pre ->
  (datum_type d = None ->
   RIIDMaterial_init db e = ([], Raise (KeyError "type")))
  /\ (forall t,
         datum_type d = Some t -> startswith t "formula" = true ->
         datum_range d = None ->
         RIIDMaterial_init db e = ([], Raise (KeyError "range")))
  /\ (forall t r,
         datum_type d = Some t -> startswith t "formula" = true ->
         parse_range d = Ok r ->
         datum_coefficients d = None ->
         RIIDMaterial_init db e = ([], Raise (KeyError "coefficients"))).
Proof.
  intros Hdata Hpre. split; [ | split].
  - intros Ht. unfold RIIDMaterial_init, extract_dispersion. rewrite Hdata.
    destruct (data_loop_passed_over pre (d :: post)
                {| local_type := None; local_n := PyNone;
                   local_range := None |} Hpre)
      as (vars' & _ & _ & ->).
    cbn [data_loop]. rewrite Ht. reflexivity.
  - intros t Ht Hf Hr.
    rewrite (RIIDMaterial_init_formula db e pre post d t Hdata Hpre Ht Hf).
    unfold analytical, parse_range. rewrite Hr. reflexivity.
  - intros t r Ht Hf Hr Hc.
    rewrite (RIIDMaterial_init_formula db e pre post d t Hdata Hpre Ht Hf).
    unfold analytical. rewrite Hr. unfold parse_coefficients.
    rewrite Hc. reflexivity.
Qed.

Lemma missing_key_raises_KeyError_witness :
  RIIDMaterial_init "Bare.yml" (entry_of bare_formula_datum)
  = ([], Raise (KeyError "range")).
Proof.
  exact (proj1 (proj2 (missing_key_raises_KeyError "Bare.yml"
                         (entry_of bare_formula_datum) [] []
                         bare_formula_datum eq_refl (Forall_nil _)))
           "formula 1" eq_refl eq_refl eq_refl).
Defined.

(** X13.  The formula index is the second word of the type, read as an
    integer once range and coefficients have been read: a type of one word
    (such as [formula] alone) ends the construction with [IndexError], a
    second word that is no integer with [ValueError]. *)
Theorem formula_tag_without_index (db : string) (e : entry)
  (pre post : list datum) (d : datum) (t : string) (r cs : list R) :
  DATA e = Some (pre ++ d :: post)%list ->
  Forall passed_over pre ->
  datum_type d = Some t ->
  startswith t "formula" = true ->
  parse_range d = Ok r ->
  parse_coefficients d = Ok cs ->
  ((length (split t) < 2)%nat ->
   RIIDMaterial_init db e = ([], Raise IndexError))
  /\ (forall w i rest,
         split t = (w :: i :: rest)%list ->
         int_of_string i = Raise ValueError ->
         RIIDMaterial_init db e = ([], Raise ValueError)).
Proof.
  intros Hdata Hpre Ht Hf Hr Hc.
  rewrite (RIIDMaterial_init_formula db e pre post d t Hdata Hpre Ht Hf).
  unfold analytical. rewrite Hr, Hc. cbn [bind]. unfold formula_index.
  split.
  - intros Hlen.
    destruct (split t) as [ | w [ | i rest]]; simpl in Hlen;
      [reflexivity | reflexivity | lia].
  - intros w i rest Hs Hi. rewrite Hs. cbn [getitem nth_error bind].
    rewrite Hi. reflexivity.
Qed.

Lemma formula_tag_without_index_witness :
  RIIDMaterial_init "NoIndex.yml" (entry_of unindexed_formula_datum)
  = ([], Raise IndexError).
Proof.
  assert (Hlen : (length (split "formula") < 2)%nat) by (simpl; lia).
  exact (proj1 (formula_tag_without_index "NoIndex.yml"
                  (entry_of unindexed_formula_datum) [] []
                  unindexed_formula_datum "formula"
                  [c * 2 * PI / 1; c * 2 * PI / 10] [0; 1; 1.5]
                  eq_refl (Forall_nil _) eq_refl eq_refl
                  (parse_range_10_1 unindexed_formula_datum eq_refl)
                  (parse_coefficients_0_1_1_5 unindexed_formula_datum
                     eq_refl))
           Hlen).
Defined.

(** X14.  The number of bounds of the range is checked last, by the base
    constructor: a formula datum that is well formed but for a range of
    one bound, or of three and more, ends the construction with
    [PropertySetError] for the property [range_]. *)
Theorem wrong_bound_count_raises_PropertySetError (db : string) (e : entry)
  (pre post : list datum) (d : datum) (t : string) (k : Z)
  (r cs : list R) :
  DATA e = Some (pre ++ d :: post)%list ->
  Forall passed_over pre ->
  datum_type d = Some t ->
  startswith t "formula" = true ->
  formula_index t = Ok k -> (1 <= k <= 9)%Z ->
  parse_range d = Ok r ->
  parse_coefficients d = Ok cs ->
  length r <> 2%nat ->
  RIIDMaterial_init db e
  = ([], Raise (PropertySetError "range_"
                  "Frequency range is not a 2-tuple")).
Proof.
  intros Hdata Hpre Ht Hf Hidx Hk Hr Hc Hlen.
  rewrite (RIIDMaterial_init_formula db e pre post d t Hdata Hpre Ht Hf).
  unfold analytical. rewrite Hr, Hc, Hidx. cbn [bind].
  rewrite (dispersion_of_formula_supported k cs Hk).
  cbn [bind local_n local_range].
  unfold Material_init, set_n. cbn [callable bind]. unfold set_range_.
  apply Nat.eqb_neq in Hlen. rewrite Hlen. reflexivity.
Qed.

Lemma parse_range_1 (d : datum) :
  datum_range d = Some "1" -> parse_range d = Ok [c * 2 * PI / 1].
Proof.
  intros Hd. unfold parse_range. rewrite Hd. cbn [lookup bind].
  change (rev (split "1")) with ["1"]. cbn [bind comprehension].
  rewrite float_1. cbn [bind]. rewrite frequency_1. reflexivity.
Qed.

Lemma wrong_bound_count_raises_PropertySetError_witness :
  RIIDMaterial_init "OneBound.yml" (entry_of one_bound_datum)
  = ([], Raise (PropertySetError "range_"
                  "Frequency range is not a 2-tuple")).
Proof.
  assert (Hk : (1 <= 1 <= 9)%Z) by lia.
  assert (Hlen : length [c * 2 * PI / 1] <> 2%nat) by (simpl; lia).
  exact (wrong_bound_count_raises_PropertySetError "OneBound.yml"
           (entry_of one_bound_datum) [] [] one_bound_datum "formula 1"
           1%Z [c * 2 * PI / 1] [0; 1; 1.5]
           eq_refl (Forall_nil _) eq_refl eq_refl eq_refl Hk
           (parse_range_1 one_bound_datum eq_refl)
           (parse_coefficients_0_1_1_5 one_bound_datum eq_refl) Hlen).
Defined.

(** Why the loop over the data ended, when it ended without exception. *)
Lemma data_loop_inv (data : list datum) :
  forall (vars : locals) (out : list string) (vars' : locals),
    data_loop data vars = (out, Ok vars') ->
    (Forall passed_over data /\ out = []
     /\ local_n vars' = local_n vars)
    \/ exists pre d post t,
         data = (pre ++ d :: post)%list
         /\ Forall passed_over pre
         /\ datum_type d = Some t
         /\ ((startswith t "formula" = true /\ out = []
              /\ analytical d t = Ok vars')
             \/ (startswith t "tabulated n" = true
                 /\ local_n vars' = local_n vars)).
Proof.
  induction data as [ | d data IH]; intros vars out vars' H.
  - left. simpl in H. injection H as <- <-. repeat split. constructor.
  - cbn [data_loop] in H.
    destruct (datum_type d) as [t | ] eqn:Ht; cbn [lookup] in H;
      [ | discriminate].
    destruct (startswith t "formula") eqn:Hf.
    + right. exists [], d, data, t. injection H as <- Ha.
      repeat split; try assumption; [constructor | ].
      left. repeat split; assumption.
    + destruct (startswith t "tabulated n") eqn:Htab.
      * right. exists [], d, data, t. injection H as <- <-.
        repeat split; try assumption; [constructor | ].
        right. split; [exact Htab | reflexivity].
      * assert (Hd : passed_over d) by (exists t; repeat split; assumption).
        apply IH in H as [(Hall & Hout & Hn)
                         | (pre & d' & post & t' & -> & Hpre & Ht' & Hc)].
        -- left. repeat split; [constructor; assumption | exact Hout | ].
           exact Hn.
        -- right. exists (d :: pre), d', post, t'.
           repeat split; try assumption.
           constructor; assumption.
Qed.

(** X15.  The constructor succeeds only through a formula datum: if it
    returns an instance, nothing was printed, the data before the first
    datum whose type starts with [formula] were all of other types, that
    datum has an index from [1] to [9], a range of two bounds and
    coefficients that were read; the instance is named after [db], holds
    the references and comments of the entry, the type of the datum and
    the two converted bounds in ascending order. *)
Theorem RIIDMaterial_init_success_inv (db : string) (e : entry)
  (out : list string) (m : Material) :
  RIIDMaterial_init db e = (out, Ok m) ->
  out = []
  /\ exists pre d post t k cs r1 r2,
       DATA e = Some (pre ++ d :: post)%list
       /\ Forall passed_over pre
       /\ datum_type d = Some t
       /\ startswith t "formula" = true
       /\ formula_index t = Ok k /\ (1 <= k <= 9)%Z
       /\ parse_range d = Ok [r1; r2]
       /\ parse_coefficients d = Ok cs
       /\ m = riid_material db e t k cs r1 r2.
Proof.
  unfold RIIDMaterial_init, extract_dispersion. intros H.
  destruct (DATA e) as [data | ] eqn:Hdata; [ | discriminate].
  destruct (data_loop data _) as [out' r] eqn:Hloop.
  injection H as -> H.
  destruct r as [vars' | err]; [ | discriminate]. cbn [bind] in H.
  apply data_loop_inv in Hloop
    as [(_ & _ & Hn) | (pre & d & post & t & -> & Hpre & Ht & Hc)].
  - cbn [local_n] in Hn. rewrite Hn in H. discriminate.
  - destruct Hc as [(Hf & -> & Ha) | (_ & Hn)].
    + split; [reflexivity | ].
      apply analytical_inv in Ha as (r & cs & k & Hr & Hc & Hidx & Hk & ->).
      cbn [is_None local_n local_type local_range bind] in H.
      apply Material_init_inv in H as (f & a & b & Ef & Er & ->).
      injection Ef as <-. injection Er as ->.
      exists pre, d, post, t, k, cs, a, b. destruct Hk as [Hk1 Hk9].
      repeat split; try assumption.
      unfold riid_material. rewrite <- normalised_pair. reflexivity.
    + cbn [local_n] in Hn. rewrite Hn in H. discriminate.
Qed.

Lemma RIIDMaterial_init_success_inv_witness :
  exists pre d post t k cs r1 r2,
    DATA sellmeier_entry = Some (pre ++ d :: post)%list
    /\ Forall passed_over pre
    /\ datum_type d = Some t
    /\ startswith t "formula" = true
    /\ formula_index t = Ok k /\ (1 <= k <= 9)%Z
    /\ parse_range d = Ok [r1; r2]
    /\ parse_coefficients d = Ok cs
    /\ sellmeier_material "Sellmeier.yml" None None
       = riid_material "Sellmeier.yml" sellmeier_entry t k cs r1 r2.
Proof.
  exact (proj2 (RIIDMaterial_init_success_inv "Sellmeier.yml"
                  sellmeier_entry [] _
                  (sellmeier_init "Sellmeier.yml" sellmeier_entry [] []
                     eq_refl (Forall_nil _)))).
Defined.

Lemma le_div_iff (k x y : R) : 0 < y -> (x <= k / y <-> x * y <= k).
Proof.
  intros Hy. split; intros H.
  - replace k with (k / y * y) by (field; lra).
    apply Rmult_le_compat_r; lra.
  - apply Rmult_le_reg_r with y; [exact Hy | ].
    replace (k / y * y) with k by (field; lra). exact H.
Qed.

Lemma div_le_iff (k x y : R) : 0 < y -> (k / y <= x <-> k <= x * y).
Proof.
  intros Hy. split; intros H.
  - replace k with (k / y * y) by (field; lra).
    apply Rmult_le_compat_r; lra.
  - apply Rmult_le_reg_r with y; [exact Hy | ].
    replace (k / y * y) with k by (field; lra). exact H.
Qed.

(** The converted bounds of two positive wavelengths, smaller first. *)
Lemma converted_bounds (k a b : R) :
  0 < k -> 0 < a -> 0 < b ->
  Rmin (k / b) (k / a) = k / Rmax a b
  /\ Rmax (k / b) (k / a) = k / Rmin a b.
Proof.
  intros Hk Ha Hb.
  assert (Hswap : k / b <= k / a <-> a <= b).
  { rewrite (le_div_iff k (k / b) a Ha).
    replace (k / b * a) with (k * a / b) by (field; lra).
    rewrite (div_le_iff (k * a) k b Hb). split; intros H; nra. }
  unfold Rmin, Rmax.
  destruct (Rle_dec (k / b) (k / a)) as [L | L],
           (Rle_dec a b) as [L' | L'];
    try (split; reflexivity); exfalso; tauto.
Qed.

Lemma parse_range_pair (d : datum) (s x y : string) (a b : R) :
  datum_range d = Some s -> split s = [x; y] ->
  float_of_string x = Ok a -> float_of_string y = Ok b ->
  a <> 0 -> b <> 0 ->
  parse_range d = Ok [c * 2 * PI / b; c * 2 * PI / a].
Proof.
  intros Hd Hs Hx Hy Ha Hb. unfold parse_range. rewrite Hd.
  cbn [lookup bind]. rewrite Hs. cbn [rev app bind comprehension].
  rewrite Hy. cbn [bind]. unfold frequency.
  rewrite (_converter_Ok b Hb). cbn [bind].
  rewrite Hx. cbn [bind]. rewrite (_converter_Ok a Ha). reflexivity.
Qed.

(** X16.  A formula datum whose range names two positive wavelengths [a]
    and [b], in either order, gives an instance whose stored range is
    [(2 pi c / max(a, b), 2 pi c / min(a, b))]; the range check on the
    angular frequency is then the check that the wavelength lies between
    the two: [omega] is in the range exactly when [wavelength(omega)]
    returns a value in [[min(a, b), max(a, b)]]. *)
Theorem range_is_wavelength_interval (db : string) (e : entry)
  (pre post : list datum) (d : datum) (t s x y : string) (k : Z)
  (cs : list R) (a b : R) :
  DATA e = Some (pre ++ d :: post)%list ->
  Forall passed_over pre ->
  datum_type d = Some t ->
  startswith t "formula" = true ->
  formula_index t = Ok k -> (1 <= k <= 9)%Z ->
  parse_coefficients d = Ok cs ->
  datum_range d = Some s -> split s = [x; y] ->
  float_of_string x = Ok a -> float_of_string y = Ok b ->
  0 < a -> 0 < b ->
  exists m,
    RIIDMaterial_init db e = ([], Ok m)
    /\ _range_ m
       = Some [c * 2 * PI / Rmax a b; c * 2 * PI / Rmin a b]
    /\ forall omega,
         in_range m omega
         <-> exists l, wavelength omega = Ok l /\ Rmin a b <= l <= Rmax a b.
Proof.
  intros Hdata Hpre Ht Hf Hidx Hk Hc Hd Hs Hx Hy Ha Hb.
  pose proof two_pi_c_positive as HK.
  assert (Hr : parse_range d = Ok [c * 2 * PI / b; c * 2 * PI / a])
    by (apply (parse_range_pair d s x y a b); try assumption; lra).
  exists (riid_material db e t k cs (c * 2 * PI / b) (c * 2 * PI / a)).
  split; [exact (RIIDMaterial_init_supported db e pre post d t k cs _ _
                   Hdata Hpre Ht Hf Hidx Hk Hr Hc) | ].
  destruct (converted_bounds (c * 2 * PI) a b HK Ha Hb) as [Emin Emax].
  assert (Hrange : _range_ (riid_material db e t k cs (c * 2 * PI / b)
                              (c * 2 * PI / a))
                   = Some [c * 2 * PI / Rmax a b; c * 2 * PI / Rmin a b])
    by (cbn [riid_material _range_]; rewrite Emin, Emax; reflexivity).
  split; [exact Hrange | ].
  assert (Hmn : 0 < Rmin a b) by (unfold Rmin; destruct (Rle_dec a b); lra).
  assert (Hmx : 0 < Rmax a b) by (unfold Rmax; destruct (Rle_dec a b); lra).
  set (K := c * 2 * PI) in *. set (mn := Rmin a b) in *.
  set (mx := Rmax a b) in *.
  intros omega. unfold in_range. rewrite Hrange. split.
  - intros (lo & hi & E & Hlo & Hhi). injection E as <- <-.
    assert (Hw : 0 < omega).
    { assert (0 < K / mx) by (apply Rdiv_lt_0_compat; assumption). lra. }
    exists (K / omega).
    split; [unfold wavelength; apply _converter_Ok; lra | ].
    apply (div_le_iff K omega mx Hmx) in Hlo.
    apply (le_div_iff K omega mn Hmn) in Hhi.
    split.
    + apply (le_div_iff K mn omega Hw). lra.
    + apply (div_le_iff K mx omega Hw). lra.
  - intros (l & Hl & Hlo & Hhi).
    assert (Hnz : omega <> 0).
    { intros ->. unfold wavelength, _converter in Hl.
      rewrite py_div_zero in Hl. discriminate. }
    unfold wavelength in Hl. rewrite (_converter_Ok omega Hnz) in Hl.
    injection Hl as <-. fold K in Hlo, Hhi.
    assert (Hw : 0 < omega).
    { destruct (Rlt_dec 0 omega) as [P | P]; [exact P | exfalso].
      assert (Hneg : 0 < - omega) by lra.
      assert (0 < K / - omega) by (apply Rdiv_lt_0_compat; assumption).
      replace (K / omega) with (- (K / - omega)) in Hlo by (field; lra).
      lra. }
    exists (K / mx), (K / mn). split; [reflexivity | ].
    apply (le_div_iff K mn omega Hw) in Hlo.
    apply (div_le_iff K mx omega Hw) in Hhi.
    split.
    + apply (div_le_iff K omega mx Hmx). lra.
    + apply (le_div_iff K omega mn Hmn). lra.
Qed.

Lemma range_is_wavelength_interval_witness :
  exists m,
    RIIDMaterial_init "Sellmeier.yml" sellmeier_entry = ([], Ok m)
    /\ _range_ m = Some [c * 2 * PI / Rmax 10 1; c * 2 * PI / Rmin 10 1].
Proof.
  assert (Hk : (1 <= 1 <= 9)%Z) by lia.
  assert (H10 : 0 < 10) by lra. assert (H1 : 0 < 1) by lra.
  destruct (range_is_wavelength_interval "Sellmeier.yml" sellmeier_entry
              [] [] sellmeier_datum "formula 1" "10 1" "10" "1" 1%Z
              [0; 1; 1.5] 10 1 eq_refl (Forall_nil _) eq_refl eq_refl
              eq_refl Hk
              (parse_coefficients_0_1_1_5 sellmeier_datum eq_refl)
              eq_refl eq_refl float_10 float_1 H10 H1)
    as (m & Hinit & Hr & _).
  exists m. split; assumption.
Defined.

Lemma formula_of_no_coefficient (k : Z) (l : R) :
  formula_of k [] l = Raise IndexError.
Proof.
  unfold formula_of.
  repeat match goal with
         | |- context [(k =? ?j)%Z] => destruct (k =? j)%Z
         end;
    reflexivity.
Qed.

(** X17.  The constructor does not look at the number of coefficients: a
    formula datum with a supported index and a range of two bounds gives
    an instance whatever its coefficients are; when there is none, every
    call of [n] at a non-zero in-range frequency raises [IndexError]. *)
Theorem coefficients_checked_at_call (db : string) (e : entry)
  (pre post : list datum) (d : datum) (t : string) (k : Z)
  (cs : list R) (r1 r2 : R) :
  DATA e = Some (pre ++ d :: post)%list ->
  Forall passed_over pre ->
  datum_type d = Some t ->
  startswith t "formula" = true ->
  formula_index t = Ok k -> (1 <= k <= 9)%Z ->
  parse_range d = Ok [r1; r2] ->
  parse_coefficients d = Ok cs ->
  exists m,
    RIIDMaterial_init db e = ([], Ok m)
    /\ (cs = [] ->
        forall omega,
          in_range m omega -> omega <> 0 ->
          n m [omega] = Raise IndexError).
Proof.
  intros Hdata Hpre Ht Hf Hidx Hk Hr Hc.
  exists (riid_material db e t k cs r1 r2).
  split; [exact (RIIDMaterial_init_supported db e pre post d t k cs r1 r2
                   Hdata Hpre Ht Hf Hidx Hk Hr Hc) | ].
  intros -> omega (lo & hi & Hrange & Hin) Hnz.
  rewrite (n_in_range (riid_material db e t k [] r1 r2)
             (frequency_wrap (formula_of k [])) lo hi omega
             eq_refl Hrange Hin).
  unfold frequency_wrap, wavelength. rewrite (_converter_Ok omega Hnz).
  cbn [bind]. apply formula_of_no_coefficient.
Qed.

Lemma parse_coefficients_empty (d : datum) :
  datum_coefficients d = Some "" -> parse_coefficients d = Ok [].
Proof. intros Hd. unfold parse_coefficients. rewrite Hd. reflexivity. Qed.

Lemma coefficients_checked_at_call_witness :
  exists m,
    RIIDMaterial_init "NoCoefficient.yml" (entry_of no_coefficient_datum)
    = ([], Ok m)
    /\ n m [c * 2 * PI / 2] = Raise IndexError.
Proof.
  assert (Hk : (1 <= 1 <= 9)%Z) by lia.
  destruct (coefficients_checked_at_call "NoCoefficient.yml"
              (entry_of no_coefficient_datum) [] [] no_coefficient_datum
              "formula 1" 1%Z [] (c * 2 * PI / 1) (c * 2 * PI / 10)
              eq_refl (Forall_nil _) eq_refl eq_refl eq_refl Hk
              (parse_range_10_1 no_coefficient_datum eq_refl)
              (parse_coefficients_empty no_coefficient_datum eq_refl))
    as (m & Hinit & Hcall).
  exists m. split; [exact Hinit | ].
  assert (Hm : m = riid_material "NoCoefficient.yml"
                     (entry_of no_coefficient_datum) "formula 1" 1 []
                     (c * 2 * PI / 1) (c * 2 * PI / 10)).
  { rewrite (RIIDMaterial_init_supported "NoCoefficient.yml"
               (entry_of no_coefficient_datum) [] [] no_coefficient_datum
               "formula 1" 1%Z [] (c * 2 * PI / 1) (c * 2 * PI / 10)
               eq_refl (Forall_nil _) eq_refl eq_refl eq_refl Hk
               (parse_range_10_1 no_coefficient_datum eq_refl)
               (parse_coefficients_empty no_coefficient_datum eq_refl))
      in Hinit.
    injection Hinit as <-. reflexivity. }
  apply (Hcall eq_refl).
  - rewrite Hm. pose proof two_pi_c_positive as HK.
    exists (Rmin (c * 2 * PI / 1) (c * 2 * PI / 10)),
           (Rmax (c * 2 * PI / 1) (c * 2 * PI / 10)).
    split; [reflexivity | ].
    set (K := c * 2 * PI) in *. unfold Rmin, Rmax.
    destruct (Rle_dec (K / 1) (K / 10)); lra.
  - pose proof two_pi_c_positive as HK. set (K := c * 2 * PI) in *. lra.
Defined.

(* ================================================================= *)
(** ** The power function and the loops of the formulas *)

Lemma integer_parts (z : Z) : frac_part (IZR z) = 0 /\ Int_part (IZR z) = z.
Proof.
  destruct (Int_part_frac_part_spec (IZR z) z 0) as [Hi Hf]; [lra | lra | ].
  split; congruence.
Qed.

(** [math.pow] on a positive base is the real power. *)
Lemma math_pow_positive (x y : R) :
  0 < x -> math_pow x y = Ok (Rpower x y).
Proof.
  intros Hx. unfold math_pow.
  destruct (Req_dec_T y 0) as [-> | _].
  - rewrite Rpower_O by exact Hx. reflexivity.
  - destruct (Rlt_dec 0 x) as [_ | N]; [reflexivity | contradiction].
Qed.

(** [math.pow] with a natural number as exponent never raises. *)
Lemma math_pow_nat (x : R) (k : nat) : math_pow x (INR k) = Ok (x ^ k).
Proof.
  unfold math_pow. destruct (Req_dec_T (INR k) 0) as [E | N].
  - assert (k = 0%nat) as -> by (apply INR_eq; rewrite E; reflexivity).
    reflexivity.
  - assert (Hk : (0 < k)%nat)
      by (destruct k; [exfalso; apply N; reflexivity | lia]).
    destruct (Rlt_dec 0 x) as [Hx | Hx].
    + rewrite Rpower_pow by exact Hx. reflexivity.
    + destruct (Req_dec_T x 0) as [-> | Hnz].
      * destruct (Rlt_dec 0 (INR k)) as [_ | F].
        -- rewrite pow_i by exact Hk. reflexivity.
        -- exfalso. apply F. apply lt_0_INR. exact Hk.
      * rewrite INR_IZR_INZ.
        destruct (integer_parts (Z.of_nat k)) as [-> ->].
        destruct (Req_dec_T 0 0) as [_ | F]; [ | contradiction F; reflexivity].
        rewrite <- pow_powerRZ. reflexivity.
Qed.

(** [math.pow(x, -2)] is the inverse square off zero, and a domain error
    at zero. *)
Lemma math_pow_minus_2 (x : R) :
  (x <> 0 -> math_pow x (-2) = Ok (/ x ^ 2))
  /\ (x = 0 -> math_pow x (-2) = Raise ValueError).
Proof.
  unfold math_pow.
  destruct (Req_dec_T (-2) 0) as [E | _]; [lra | ].
  split.
  - intros Hnz. destruct (Rlt_dec 0 x) as [Hx | Hx].
    + replace (-2) with (- INR 2) by (simpl; lra).
      rewrite Rpower_Ropp, Rpower_pow by exact Hx. reflexivity.
    + destruct (Req_dec_T x 0) as [E | _]; [contradiction | ].
      destruct (integer_parts (-2)) as [-> ->].
      destruct (Req_dec_T 0 0) as [_ | F]; [ | contradiction F; reflexivity].
      reflexivity.
  - intros ->.
    destruct (Rlt_dec 0 0) as [F | _]; [lra | ].
    destruct (Req_dec_T 0 0) as [_ | F]; [ | contradiction F; reflexivity].
    destruct (Rlt_dec 0 (-2)) as [F | _]; [lra | reflexivity].
Qed.

Lemma for_each_app {A S : Type} (body : S -> A -> result S)
  (xs ys : list A) :
  forall acc,
    for_each body (xs ++ ys)%list acc
    = (acc' <- for_each body xs acc ;; for_each body ys acc').
Proof.
  induction xs as [ | x xs IH]; intros acc; [reflexivity | ].
  cbn [app for_each]. destruct (body acc x) as [acc' | e]; cbn [bind].
  - apply IH.
  - reflexivity.
Qed.

(** A loop over pairs whose body adds [term p] for each pair [p] with the
    property [P]. *)
Lemma for_each_pairs (body : R -> list R -> result R) (term : R * R -> R)
  (P : R * R -> Prop) :
  (forall acc p, P p -> body acc [fst p; snd p] = Ok (acc + term p)) ->
  forall pairs,
    Forall P pairs ->
    forall acc,
      for_each body (map (fun p => [fst p; snd p]) pairs) acc
      = Ok (acc + pair_sum term pairs).
Proof.
  intros Hbody pairs Hall.
  induction Hall as [ | p pairs Hp _ IH]; intros acc.
  - simpl. f_equal. lra.
  - cbn [map for_each]. rewrite (Hbody acc p Hp). cbn [bind].
    rewrite IH. f_equal. unfold pair_sum. cbn [fold_right]. lra.
Qed.

(** The same loop when the body raises on the first pair without [P]. *)
Lemma for_each_pairs_raises (body : R -> list R -> result R)
  (term : R * R -> R) (P : R * R -> Prop) (e : exn) :
  (forall acc p, P p -> body acc [fst p; snd p] = Ok (acc + term p)) ->
  forall pre p post,
    Forall P pre ->
    (forall acc, body acc [fst p; snd p] = Raise e) ->
    forall acc,
      for_each body (map (fun p => [fst p; snd p]) (pre ++ p :: post)%list)
        acc
      = Raise e.
Proof.
  intros Hbody pre p post Hpre Hp acc.
  rewrite map_app, for_each_app.
  rewrite (for_each_pairs body term P Hbody pre Hpre). cbn [bind map for_each].
  rewrite Hp. reflexivity.
Qed.

Lemma flatten_pairs_length (pairs : list (R * R)) :
  length (flatten_pairs pairs) = (2 * length pairs)%nat.
Proof.
  induction pairs as [ | p pairs IH]; [reflexivity | ].
  unfold flatten_pairs in *. cbn [flat_map app length]. rewrite IH. lia.
Qed.

(** The chunks the pair formulas loop over, for a leading coefficient and
    whole pairs. *)
Lemma pair_chunks (c0 : R) (pairs : list (R * R)) :
  chunks (c0 :: flatten_pairs pairs) 2
    (py_range 1 (length (c0 :: flatten_pairs pairs)) 2)
  = map (fun p => [fst p; snd p]) pairs.
Proof.
  unfold py_range. cbn [length]. rewrite flatten_pairs_length.
  assert (H := chunks_pairs pairs [c0] (S (2 * length pairs))).
  cbn [length app] in H. apply H. lia.
Qed.

Lemma range_from_past (fuel start stop step : nat) :
  (stop <= start)%nat -> range_from fuel start stop step = [].
Proof.
  intros H. destruct fuel as [ | fuel]; simpl; [reflexivity | ].
  replace (start <? stop)%nat with false; [reflexivity | ].
  symmetry. apply Nat.ltb_ge. exact H.
Qed.

(** The chunks when one coefficient is left over after the pairs: the last
    chunk holds it alone. *)
Lemma chunks_pairs_dangling (x : R) (pairs : list (R * R)) :
  forall (pre : list R) (fuel : nat),
    (length pairs < fuel)%nat ->
    chunks (pre ++ flatten_pairs pairs ++ [x])%list 2
      (range_from fuel (length pre) (length pre + 2 * length pairs + 1) 2)
    = (map (fun p => [fst p; snd p]) pairs ++ [[x]])%list.
Proof.
  induction pairs as [ | p pairs IH]; intros pre fuel Hfuel.
  - destruct fuel as [ | fuel]; [simpl in Hfuel; lia | ].
    cbn [length flatten_pairs flat_map app map range_from].
    replace (length pre <? length pre + 2 * 0 + 1)%nat with true
      by (symmetry; apply Nat.ltb_lt; lia).
    rewrite range_from_past by lia.
    unfold chunks, slice. cbn [map].
    replace (length pre + 2 - length pre)%nat with 2%nat by lia.
    rewrite skipn_app, Nat.sub_diag, skipn_all. reflexivity.
  - destruct fuel as [ | fuel]; [simpl in Hfuel; lia | ].
    cbn [length range_from].
    replace (length pre <? length pre + 2 * S (length pairs) + 1)%nat
      with true by (symmetry; apply Nat.ltb_lt; lia).
    unfold chunks in *. cbn [map app]. f_equal.
    + unfold slice.
      replace (length pre + 2 - length pre)%nat with 2%nat by lia.
      rewrite skipn_app, Nat.sub_diag, skipn_all. reflexivity.
    + specialize (IH (pre ++ [fst p; snd p])%list fuel).
      rewrite length_app in IH. cbn [length] in IH.
      replace (length pre + 2 * S (length pairs) + 1)%nat
        with (length pre + 2 + 2 * length pairs + 1)%nat by lia.
      rewrite <- IH by (simpl in Hfuel; lia).
      cbn [flatten_pairs flat_map]. rewrite <- !app_assoc. reflexivity.
Qed.

Lemma pair_chunks_dangling (c0 x : R) (pairs : list (R * R)) :
  chunks (c0 :: flatten_pairs pairs ++ [x])%list 2
    (py_range 1 (length (c0 :: flatten_pairs pairs ++ [x])%list) 2)
  = (map (fun p => [fst p; snd p]) pairs ++ [[x]])%list.
Proof.
  unfold py_range. cbn [length]. rewrite length_app, flatten_pairs_length.
  cbn [length].
  assert (H := chunks_pairs_dangling x pairs [c0]
                 (S (2 * length pairs + 1))).
  cbn [length app] in H. apply H. lia.
Qed.

(** A loop whose body raises on its last element raises. *)
Lemma for_each_last_raises {A S : Type} (body : S -> A -> result S)
  (xs : list A) (y : A) :
  (forall acc, exists e, body acc y = Raise e) ->
  forall acc, exists e, for_each body (xs ++ [y])%list acc = Raise e.
Proof.
  intros Hy acc. rewrite for_each_app.
  destruct (for_each body xs acc) as [acc' | e]; cbn [bind for_each].
  - destruct (Hy acc') as [e He]. exists e. rewrite He. reflexivity.
  - exists e. reflexivity.
Qed.

(* ================================================================= *)
(** ** The formulas against their closed forms *)

(** X18.  Formula 1 on the coefficients [c0, c1, c2, ...] made of [c0] and
    whole pairs: where no pair has its pole ([l^2 = ci+1^2]) it returns the
    square root of [1 + c0 + sum ci * l^2 / (l^2 - ci+1^2)] when that is
    not negative and raises [ValueError] when it is; at the first pole it
    raises [ZeroDivisionError]. *)
Theorem formula_1_closed_form (c0 l : R) (pairs : list (R * R)) :
  (Forall (fun p => l ^ 2 - snd p ^ 2 <> 0) pairs ->
   (0 <= sellmeier_n2 c0 pairs l ->
    formula_1 (c0 :: flatten_pairs pairs) l
    = Ok (sqrt (sellmeier_n2 c0 pairs l)))
   /\ (sellmeier_n2 c0 pairs l < 0 ->
       formula_1 (c0 :: flatten_pairs pairs) l = Raise ValueError))
  /\ (forall pre p post,
         pairs = (pre ++ p :: post)%list ->
         Forall (fun p => l ^ 2 - snd p ^ 2 <> 0) pre ->
         l ^ 2 - snd p ^ 2 = 0 ->
         formula_1 (c0 :: flatten_pairs pairs) l = Raise ZeroDivisionError).
Proof.
  split.
  - intros Hpoles. rewrite (formula_1_sellmeier c0 l pairs Hpoles).
    split; intros H; [apply math_sqrt_Ok | apply math_sqrt_negative];
      exact H.
  - intros pre p post -> Hpre Hpole. unfold formula_1.
    cbn [getitem nth_error bind]. rewrite pair_chunks.
    match goal with
    | |- context [for_each ?b _ _] =>
        rewrite (for_each_pairs_raises b
                   (fun p => fst p * l ^ 2 / (l ^ 2 - snd p ^ 2))
                   (fun p => l ^ 2 - snd p ^ 2 <> 0) ZeroDivisionError)
    end.
    + reflexivity.
    + intros acc q Hq. cbn [getitem nth_error bind]. rewrite !math_pow_2.
      cbn [bind]. rewrite py_div_Ok by exact Hq. reflexivity.
    + exact Hpre.
    + intros acc. cbn [getitem nth_error bind]. rewrite !math_pow_2.
      cbn [bind]. rewrite Hpole, py_div_zero. reflexivity.
Qed.

Lemma formula_1_closed_form_witness :
  formula_1 (0 :: flatten_pairs [(1, 1.5)]) 2
  = Ok (sqrt (sellmeier_n2 0 [(1, 1.5)] 2))
  /\ formula_1 (0 :: flatten_pairs [(1, 1.5)]) 1.5 = Raise ZeroDivisionError.
Proof.
  split.
  - apply (proj1 (formula_1_closed_form 0 2 [(1, 1.5)])).
    + constructor; [simpl; lra | constructor].
    + unfold sellmeier_n2. simpl. lra.
  - apply (proj2 (formula_1_closed_form 0 1.5 [(1, 1.5)]) [] (1, 1.5) []).
    + reflexivity.
    + constructor.
    + simpl. lra.
Defined.

(** X19.  Formula 2 is formula 1 with the second coefficient of a pair
    taken as it is: off the poles [l^2 = ci+1] it returns the square root
    of [1 + c0 + sum ci * l^2 / (l^2 - ci+1)] when that is not negative and
    raises [ValueError] when it is; at the first pole it raises
    [ZeroDivisionError]. *)
Theorem formula_2_closed_form (c0 l : R) (pairs : list (R * R)) :
  (Forall (fun p => l ^ 2 - snd p <> 0) pairs ->
   (0 <= sellmeier2_n2 c0 pairs l ->
    formula_2 (c0 :: flatten_pairs pairs) l
    = Ok (sqrt (sellmeier2_n2 c0 pairs l)))
   /\ (sellmeier2_n2 c0 pairs l < 0 ->
       formula_2 (c0 :: flatten_pairs pairs) l = Raise ValueError))
  /\ (forall pre p post,
         pairs = (pre ++ p :: post)%list ->
         Forall (fun p => l ^ 2 - snd p <> 0) pre ->
         l ^ 2 - snd p = 0 ->
         formula_2 (c0 :: flatten_pairs pairs) l = Raise ZeroDivisionError).
Proof.
  assert (Hbody : forall (acc : R) (q : R * R),
             l ^ 2 - snd q <> 0 ->
             (x0 <- getitem [fst q; snd q] 0 ;;
              p <- math_pow l 2 ;;
              q' <- math_pow l 2 ;;
              x1 <- getitem [fst q; snd q] 1 ;;
              t <- py_div (x0 * p) (q' - x1) ;;
              Ok (acc + t))
             = Ok (acc + fst q * l ^ 2 / (l ^ 2 - snd q))).
  { intros acc q Hq. cbn [getitem nth_error bind]. rewrite !math_pow_2.
    cbn [bind]. rewrite py_div_Ok by exact Hq. reflexivity. }
  split.
  - intros Hpoles.
    assert (Hval : formula_2 (c0 :: flatten_pairs pairs) l
                   = math_sqrt (sellmeier2_n2 c0 pairs l)).
    { unfold formula_2. cbn [getitem nth_error bind]. rewrite pair_chunks.
      match goal with
      | |- context [for_each ?b _ _] =>
          rewrite (for_each_pairs b
                     (fun p => fst p * l ^ 2 / (l ^ 2 - snd p))
                     (fun p => l ^ 2 - snd p <> 0) Hbody pairs Hpoles)
      end.
      reflexivity. }
    rewrite Hval.
    split; intros H; [apply math_sqrt_Ok | apply math_sqrt_negative];
      exact H.
  - intros pre p post -> Hpre Hpole. unfold formula_2.
    cbn [getitem nth_error bind]. rewrite pair_chunks.
    match goal with
    | |- context [for_each ?b _ _] =>
        rewrite (for_each_pairs_raises b
                   (fun p => fst p * l ^ 2 / (l ^ 2 - snd p))
                   (fun p => l ^ 2 - snd p <> 0) ZeroDivisionError Hbody
                   pre p post Hpre)
    end.
    + reflexivity.
    + intros acc. cbn [getitem nth_error bind]. rewrite !math_pow_2.
      cbn [bind]. rewrite Hpole, py_div_zero. reflexivity.
Qed.

Lemma formula_2_closed_form_witness :
  formula_2 (0 :: flatten_pairs [(1, 1)]) 2
  = Ok (sqrt (sellmeier2_n2 0 [(1, 1)] 2))
  /\ formula_2 (0 :: flatten_pairs [(1, 4)]) 2 = Raise ZeroDivisionError.
Proof.
  split.
  - apply (proj1 (formula_2_closed_form 0 2 [(1, 1)])).
    + constructor; [simpl; lra | constructor].
    + unfold sellmeier2_n2, pair_sum. simpl. lra.
  - apply (proj2 (formula_2_closed_form 0 2 [(1, 4)]) [] (1, 4) []).
    + reflexivity.
    + constructor.
    + simpl. lra.
Defined.

(** X20.  Formulas 5 and 3 at a positive wavelength, on [c0] and whole
    pairs, over the real numbers: the Cauchy formula returns
    [c0 + sum ci * l^(ci+1)]; the polynomial formula returns the square
    root of the same sum when it is not negative and raises [ValueError]
    when it is.  (A power too large for a float, on which [math.pow]
    raises [OverflowError], is beyond this reading.) *)
Theorem power_formulas_closed_form (c0 l : R) (pairs : list (R * R)) :
  0 < l ->
  formula_5 (c0 :: flatten_pairs pairs) l = Ok (power_series c0 pairs l)
  /\ (0 <= power_series c0 pairs l ->
      formula_3 (c0 :: flatten_pairs pairs) l
      = Ok (sqrt (power_series c0 pairs l)))
  /\ (power_series c0 pairs l < 0 ->
      formula_3 (c0 :: flatten_pairs pairs) l = Raise ValueError).
Proof.
  intros Hl.
  assert (Hbody : forall (acc : R) (q : R * R),
             True ->
             (x0 <- getitem [fst q; snd q] 0 ;;
              x1 <- getitem [fst q; snd q] 1 ;;
              p <- math_pow l x1 ;;
              Ok (acc + x0 * p))
             = Ok (acc + fst q * Rpower l (snd q))).
  { intros acc q _. cbn [getitem nth_error bind].
    rewrite (math_pow_positive l (snd q) Hl). reflexivity. }
  assert (Hall : Forall (fun _ : R * R => True) pairs)
    by (apply Forall_forall; intros; exact I).
  assert (H5 : formula_5 (c0 :: flatten_pairs pairs) l
               = Ok (power_series c0 pairs l)).
  { unfold formula_5. cbn [getitem nth_error bind]. rewrite pair_chunks.
    match goal with
    | |- for_each ?b _ _ = _ =>
        exact (for_each_pairs b (fun p => fst p * Rpower l (snd p))
                 (fun _ => True) Hbody pairs Hall c0)
    end. }
  assert (H3 : formula_3 (c0 :: flatten_pairs pairs) l
               = math_sqrt (power_series c0 pairs l)).
  { unfold formula_3. cbn [getitem nth_error bind]. rewrite pair_chunks.
    match goal with
    | |- context [for_each ?b _ _] =>
        rewrite (for_each_pairs b (fun p => fst p * Rpower l (snd p))
                   (fun _ => True) Hbody pairs Hall c0)
    end.
    reflexivity. }
  split; [exact H5 | ]. rewrite H3.
  split; intros H; [apply math_sqrt_Ok | apply math_sqrt_negative]; exact H.
Qed.

Lemma power_formulas_closed_form_witness :
  formula_5 (1 :: flatten_pairs [(2, 3)]) 2
  = Ok (power_series 1 [(2, 3)] 2).
Proof.
  assert (H2 : 0 < 2) by lra.
  exact (proj1 (power_formulas_closed_form 1 2 [(2, 3)] H2)).
Defined.

(** X21.  Formula 6 on [c0] and whole pairs: at a wavelength other than
    zero and off the poles [ci+1 = l^-2] it returns
    [1 + c0 + sum ci / (ci+1 - l^-2)]; at the first pole it raises
    [ZeroDivisionError]; at the wavelength zero, with a pair to evaluate,
    it raises the [ValueError] of [math.pow]. *)
Theorem formula_6_closed_form (c0 l : R) (pairs : list (R * R)) :
  (l <> 0 ->
   (Forall (fun p => snd p - / l ^ 2 <> 0) pairs ->
    formula_6 (c0 :: flatten_pairs pairs) l = Ok (gases_n c0 pairs l))
   /\ (forall pre p post,
          pairs = (pre ++ p :: post)%list ->
          Forall (fun p => snd p - / l ^ 2 <> 0) pre ->
          snd p - / l ^ 2 = 0 ->
          formula_6 (c0 :: flatten_pairs pairs) l
          = Raise ZeroDivisionError))
  /\ (l = 0 -> pairs <> [] ->
      formula_6 (c0 :: flatten_pairs pairs) l = Raise ValueError).
Proof.
  split.
  - intros Hl.
    assert (Hbody : forall (acc : R) (q : R * R),
               snd q - / l ^ 2 <> 0 ->
               (x0 <- getitem [fst q; snd q] 0 ;;
                x1 <- getitem [fst q; snd q] 1 ;;
                p <- math_pow l (-2) ;;
                t <- py_div x0 (x1 - p) ;;
                Ok (acc + t))
               = Ok (acc + fst q / (snd q - / l ^ 2))).
    { intros acc q Hq. cbn [getitem nth_error bind].
      rewrite (proj1 (math_pow_minus_2 l) Hl). cbn [bind].
      rewrite py_div_Ok by exact Hq. reflexivity. }
    split.
    + intros Hpoles. unfold formula_6. cbn [getitem nth_error bind].
      rewrite pair_chunks.
      match goal with
      | |- for_each ?b _ _ = _ =>
          exact (for_each_pairs b (fun p => fst p / (snd p - / l ^ 2))
                   (fun p => snd p - / l ^ 2 <> 0) Hbody pairs Hpoles
                   (1 + c0))
      end.
    + intros pre p post -> Hpre Hpole. unfold formula_6.
      cbn [getitem nth_error bind]. rewrite pair_chunks.
      match goal with
      | |- for_each ?b _ _ = _ =>
          apply (for_each_pairs_raises b
                   (fun p => fst p / (snd p - / l ^ 2))
                   (fun p => snd p - / l ^ 2 <> 0) ZeroDivisionError Hbody
                   pre p post Hpre)
      end.
      intros acc. cbn [getitem nth_error bind].
      rewrite (proj1 (math_pow_minus_2 l) Hl). cbn [bind].
      rewrite Hpole, py_div_zero. reflexivity.
  - intros -> Hne. destruct pairs as [ | p pairs]; [contradiction | ].
    unfold formula_6. cbn [getitem nth_error bind]. rewrite pair_chunks.
    cbn [map for_each getitem nth_error bind].
    rewrite (proj2 (math_pow_minus_2 0) eq_refl). reflexivity.
Qed.

Lemma formula_6_closed_form_witness :
  formula_6 (0 :: flatten_pairs [(1, 2)]) 1 = Ok (gases_n 0 [(1, 2)] 1)
  /\ formula_6 (0 :: flatten_pairs [(1, 2)]) 0 = Raise ValueError.
Proof.
  assert (H1 : 1 <> 0) by lra.
  assert (Hne : [(1, 2)] <> []) by discriminate.
  split.
  - apply (proj1 (proj1 (formula_6_closed_form 0 1 [(1, 2)]) H1)).
    constructor; [simpl; lra | constructor].
  - exact (proj2 (formula_6_closed_form 0 0 [(1, 2)]) eq_refl Hne).
Defined.

Lemma even_powers_loop (l : R) (rest : list R) :
  forall (i : nat) (acc : R),
    for_each
      (fun n ix =>
         p <- math_pow l (2 * INR (fst ix)) ;;
         Ok (n + snd ix * p))
      (enumerate rest i) acc
    = Ok (acc + even_powers rest i l).
Proof.
  induction rest as [ | x rest IH]; intros i acc.
  - simpl. f_equal. lra.
  - cbn [enumerate for_each fst snd].
    replace (2 * INR i) with (INR (2 * i))
      by (rewrite mult_INR; simpl; lra).
    rewrite math_pow_nat. cbn [bind]. rewrite IH.
    f_equal. cbn [even_powers]. lra.
Qed.

(** X22.  Formula 7 on [c0, c1, c2] and any further coefficients, over the
    real numbers: off the pole [l^2 = 0.028] it returns
    [c0 + c1 / (l^2 - 0.028) + c2 / (l^2 - 0.028)^2 + c3 * l^2
    + c4 * l^4 + ...], the coefficient at position [3 + j] going with the
    power [2 * (j + 1)]; at the pole it raises [ZeroDivisionError].  (A
    power too large for a float, on which [math.pow] raises
    [OverflowError], is beyond this reading.) *)
Theorem formula_7_closed_form (c0 c1 c2 l : R) (rest : list R) :
  (l ^ 2 - 0.028 <> 0 ->
   formula_7 (c0 :: c1 :: c2 :: rest) l
   = Ok (herzberger_n c0 c1 c2 rest l))
  /\ (l ^ 2 - 0.028 = 0 ->
      formula_7 (c0 :: c1 :: c2 :: rest) l = Raise ZeroDivisionError).
Proof.
  split; intros Hpole; unfold formula_7;
    cbn [getitem nth_error bind skipn]; rewrite !math_pow_2; cbn [bind].
  - rewrite py_div_Ok by exact Hpole. cbn [bind].
    rewrite (proj1 (math_pow_minus_2 (l ^ 2 - 0.028)) Hpole). cbn [bind].
    rewrite even_powers_loop. reflexivity.
  - rewrite Hpole, py_div_zero. reflexivity.
Qed.

Lemma formula_7_closed_form_witness :
  formula_7 [1; 2; 3; 4] 1 = Ok (herzberger_n 1 2 3 [4] 1).
Proof.
  apply (proj1 (formula_7_closed_form 1 2 3 1 [4])). lra.
Defined.

(** X23.  Formula 8 on four coefficients (further ones are not read), with
    [alpha = c0 + c1 * l^2 / (l^2 - c2) + c3 * l^2]: off the pole
    [l^2 = c2] it returns the square root of
    [-(2 * alpha + 1) / (alpha - 1)] exactly when
    [-1/2 <= alpha < 1]; it raises [ZeroDivisionError] for [alpha = 1] and
    [ValueError] for any other [alpha]; at the pole it raises
    [ZeroDivisionError]. *)
Theorem formula_8_domain (c0 c1 c2 c3 l : R) (rest : list R) :
  (l ^ 2 - c2 <> 0 ->
   (- (1 / 2) <= retro_alpha c0 c1 c2 c3 l < 1 ->
    formula_8 (c0 :: c1 :: c2 :: c3 :: rest) l
    = Ok (sqrt (- ((2 * retro_alpha c0 c1 c2 c3 l + 1)
                   / (retro_alpha c0 c1 c2 c3 l - 1)))))
   /\ (retro_alpha c0 c1 c2 c3 l = 1 ->
       formula_8 (c0 :: c1 :: c2 :: c3 :: rest) l = Raise ZeroDivisionError)
   /\ (retro_alpha c0 c1 c2 c3 l < - (1 / 2)
       \/ 1 < retro_alpha c0 c1 c2 c3 l ->
       formula_8 (c0 :: c1 :: c2 :: c3 :: rest) l = Raise ValueError))
  /\ (l ^ 2 - c2 = 0 ->
      formula_8 (c0 :: c1 :: c2 :: c3 :: rest) l = Raise ZeroDivisionError).
Proof.
  split.
  - intros Hpole.
    assert (Hval : formula_8 (c0 :: c1 :: c2 :: c3 :: rest) l
                   = (u <- py_div (2 * retro_alpha c0 c1 c2 c3 l + 1)
                             (retro_alpha c0 c1 c2 c3 l - 1) ;;
                      math_sqrt (- u))).
    { unfold formula_8. cbn [getitem nth_error bind]. rewrite !math_pow_2.
      cbn [bind]. rewrite py_div_Ok by exact Hpole. reflexivity. }
    rewrite Hval. set (alpha := retro_alpha c0 c1 c2 c3 l).
    split; [ | split].
    + intros [Hlo Hhi]. rewrite py_div_Ok by lra. cbn [bind].
      apply math_sqrt_Ok.
      assert (Hi : / (alpha - 1) < 0) by (apply Rinv_lt_0_compat; lra).
      unfold Rdiv. nra.
    + intros ->. replace (1 - 1) with 0 by lra. rewrite py_div_zero.
      reflexivity.
    + intros Hout.
      assert (Hne : alpha - 1 <> 0) by (destruct Hout; lra).
      rewrite py_div_Ok by exact Hne. cbn [bind].
      apply math_sqrt_negative. unfold Rdiv. destruct Hout as [Hlt | Hgt].
      * assert (Hi : / (alpha - 1) < 0) by (apply Rinv_lt_0_compat; lra).
        nra.
      * assert (Hi : 0 < / (alpha - 1)) by (apply Rinv_0_lt_compat; lra).
        nra.
  - intros Hpole. unfold formula_8. cbn [getitem nth_error bind].
    rewrite !math_pow_2. cbn [bind]. rewrite Hpole, py_div_zero.
    reflexivity.
Qed.

Lemma formula_8_domain_witness :
  formula_8 [0; 0; 0; 0] 1
  = Ok (sqrt (- ((2 * retro_alpha 0 0 0 0 1 + 1)
                 / (retro_alpha 0 0 0 0 1 - 1)))).
Proof.
  assert (Hpole : 1 ^ 2 - 0 <> 0) by lra.
  apply (proj1 (proj1 (formula_8_domain 0 0 0 0 1 []) Hpole)).
  unfold retro_alpha. lra.
Defined.

(** The loop of a pair formula whose last chunk is too short. *)
Ltac dangling_chunk :=
  match goal with
  | |- context [for_each ?b (?xs ++ [?y])%list ?a0] =>
      let Hlast := fresh "Hlast" in
      assert (Hlast : forall acc,
                 exists e, for_each b (xs ++ [y])%list acc = Raise e);
      [ apply for_each_last_raises; intros acc; exists IndexError;
        cbn [getitem nth_error bind]; rewrite ?math_pow_2; reflexivity
      | let e := fresh "e" in
        let He := fresh "He" in
        destruct (Hlast a0) as [e He]; exists e; rewrite He; reflexivity ]
  end.

(** X24.  A coefficient left over after the pairs makes the pair formulas
    (1, 2, 3, 5 and 6) raise at every wavelength: on [c0], whole pairs and
    one more coefficient none of them returns, and on [c0] and a single
    further coefficient the exception is [IndexError]. *)
Theorem dangling_coefficient_raises (f : list R -> R -> result R)
  (c0 x l : R) (pairs : list (R * R)) :
  In f [formula_1; formula_2; formula_3; formula_5; formula_6] ->
  (exists e, f (c0 :: flatten_pairs pairs ++ [x])%list l = Raise e)
  /\ f [c0; x] l = Raise IndexError.
Proof.
  intros Hf. cbn [In] in Hf.
  destruct Hf as [<- | [<- | [<- | [<- | [<- | []]]]]].
  - split.
    + unfold formula_1. cbn [getitem nth_error bind].
      rewrite pair_chunks_dangling. dangling_chunk.
    + unfold formula_1, chunks, py_range.
      cbn [length range_from Nat.ltb Nat.leb Nat.add map slice Nat.sub
             skipn firstn for_each getitem nth_error bind].
      rewrite !math_pow_2. reflexivity.
  - split.
    + unfold formula_2. cbn [getitem nth_error bind].
      rewrite pair_chunks_dangling. dangling_chunk.
    + unfold formula_2, chunks, py_range.
      cbn [length range_from Nat.ltb Nat.leb Nat.add map slice Nat.sub
             skipn firstn for_each getitem nth_error bind].
      rewrite !math_pow_2. reflexivity.
  - split; [ | reflexivity].
    unfold formula_3. cbn [getitem nth_error bind].
    rewrite pair_chunks_dangling. dangling_chunk.
  - split; [ | reflexivity].
    unfold formula_5. cbn [getitem nth_error bind].
    rewrite pair_chunks_dangling. dangling_chunk.
  - split; [ | reflexivity].
    unfold formula_6. cbn [getitem nth_error bind].
    rewrite pair_chunks_dangling. dangling_chunk.
Qed.

Lemma dangling_coefficient_raises_witness :
  formula_5 [1; 2] 3 = Raise IndexError.
Proof.
  assert (Hin : In formula_5
                  [formula_1; formula_2; formula_3; formula_5; formula_6])
    by (cbn [In]; tauto).
  exact (proj2 (dangling_coefficient_raises formula_5 1 2 3 [] Hin)).
Defined.

Lemma bind_Ok_inv {A B : Type} (m : result A) (k : A -> result B) (b : B) :
  bind m k = Ok b -> exists a, m = Ok a /\ k a = Ok b.
Proof.
  destruct m as [a | e]; cbn [bind]; intros H; [ | discriminate].
  exists a. split; [reflexivity | exact H].
Qed.

Lemma getitem_Ok_lt {A : Type} (l : list A) (i : nat) (a : A) :
  getitem l i = Ok a -> (i < length l)%nat.
Proof.
  unfold getitem. destruct (nth_error l i) eqn:E; [ | discriminate].
  intros _. apply nth_error_Some. rewrite E. discriminate.
Qed.

(** The statements of a body that ran to its end, one by one. *)
Ltac invert_binds :=
  repeat match goal with
         | H : bind _ _ = Ok _ |- _ =>
             let a := fresh "a" in
             let Ha := fresh "Ha" in
             apply bind_Ok_inv in H; destruct H as (a & Ha & H);
             cbn beta in H
         end.

(** X25.  The formulas with coefficients at fixed places return a value
    only when those places exist: formula 4 needs at least nine
    coefficients, formula 7 three, formula 8 four and formula 9 six; with
    fewer, every call raises. *)
Theorem minimum_coefficient_counts (cs : list R) (l v : R) :
  (formula_4 cs l = Ok v -> (9 <= length cs)%nat)
  /\ (formula_7 cs l = Ok v -> (3 <= length cs)%nat)
  /\ (formula_8 cs l = Ok v -> (4 <= length cs)%nat)
  /\ (formula_9 cs l = Ok v -> (6 <= length cs)%nat).
Proof.
  repeat split; intros H.
  - unfold formula_4, chunks in H. cbn [map for_each] in H. invert_binds.
    match goal with
    | Hx : getitem (slice cs 5 (5 + 4)) 3 = Ok _ |- _ =>
        apply getitem_Ok_lt in Hx; unfold slice in Hx;
        rewrite length_firstn, length_skipn in Hx; lia
    end.
  - unfold formula_7 in H. invert_binds.
    match goal with
    | Hx : getitem cs 2 = Ok _ |- _ => apply getitem_Ok_lt in Hx; lia
    end.
  - unfold formula_8 in H. invert_binds.
    match goal with
    | Hx : getitem cs 3 = Ok _ |- _ => apply getitem_Ok_lt in Hx; lia
    end.
  - unfold formula_9 in H. invert_binds.
    match goal with
    | Hx : getitem cs 5 = Ok _ |- _ => apply getitem_Ok_lt in Hx; lia
    end.
Qed.

Lemma formula_8_on_zeros : formula_8 [0; 0; 0; 0] 1 = Ok (sqrt 1).
Proof.
  unfold formula_8. cbn [getitem nth_error bind]. rewrite !math_pow_2.
  cbn [bind]. rewrite py_div_Ok by lra. cbn [bind].
  rewrite py_div_Ok by lra. cbn [bind].
  rewrite math_sqrt_Ok by (unfold Rdiv; lra).
  do 2 f_equal. field.
Qed.

Lemma minimum_coefficient_counts_witness :
  (4 <= length [0; 0; 0; 0])%nat.
Proof.
  exact (proj1 (proj2 (proj2
           (minimum_coefficient_counts [0; 0; 0; 0] 1 (sqrt 1))))
           formula_8_on_zeros).
Defined.

(** X26.  Formula 4 at a positive wavelength, on nine leading coefficients
    [c0, a1, e1, b1, f1, a2, e2, b2, f2] with positive [b1] and [b2] and
    whole pairs after them: off the two poles [l^2 = b^f] it returns the
    square root of [c0 + a1 * l^e1 / (l^2 - b1^f1)
    + a2 * l^e2 / (l^2 - b2^f2) + sum ci * l^(ci+1)] when that is not
    negative, and raises [ValueError] when it is. *)
Theorem formula_4_closed_form (c0 a1 e1 b1 f1 a2 e2 b2 f2 l : R)
  (pairs : list (R * R)) :
  0 < l -> 0 < b1 -> 0 < b2 ->
  l ^ 2 - Rpower b1 f1 <> 0 -> l ^ 2 - Rpower b2 f2 <> 0 ->
  (0 <= riid_n2 c0 a1 e1 b1 f1 a2 e2 b2 f2 pairs l ->
   formula_4
     (c0 :: a1 :: e1 :: b1 :: f1 :: a2 :: e2 :: b2 :: f2
         :: flatten_pairs pairs) l
   = Ok (sqrt (riid_n2 c0 a1 e1 b1 f1 a2 e2 b2 f2 pairs l)))
  /\ (riid_n2 c0 a1 e1 b1 f1 a2 e2 b2 f2 pairs l < 0 ->
      formula_4
        (c0 :: a1 :: e1 :: b1 :: f1 :: a2 :: e2 :: b2 :: f2
            :: flatten_pairs pairs) l
      = Raise ValueError).
Proof.
  intros Hl Hb1 Hb2 Hp1 Hp2.
  assert (Hbody : forall (acc : R) (q : R * R),
             True ->
             (x0 <- getitem [fst q; snd q] 0 ;;
              x1 <- getitem [fst q; snd q] 1 ;;
              p <- math_pow l x1 ;;
              Ok (acc + x0 * p))
             = Ok (acc + fst q * Rpower l (snd q))).
  { intros acc q _. cbn [getitem nth_error bind].
    rewrite (math_pow_positive l (snd q) Hl). reflexivity. }
  assert (Hall : Forall (fun _ : R * R => True) pairs)
    by (apply Forall_forall; intros; exact I).
  assert (Hchunks :
            chunks (c0 :: a1 :: e1 :: b1 :: f1 :: a2 :: e2 :: b2 :: f2
                       :: flatten_pairs pairs) 2
              (py_range 9
                 (length (c0 :: a1 :: e1 :: b1 :: f1 :: a2 :: e2 :: b2
                             :: f2 :: flatten_pairs pairs)) 2)
            = map (fun p => [fst p; snd p]) pairs).
  { unfold py_range. cbn [length]. rewrite flatten_pairs_length.
    assert (H := chunks_pairs pairs [c0; a1; e1; b1; f1; a2; e2; b2; f2]
                   (9 + 2 * length pairs)).
    cbn [length app] in H. apply H. lia. }
  assert (Hval :
            formula_4
              (c0 :: a1 :: e1 :: b1 :: f1 :: a2 :: e2 :: b2 :: f2
                  :: flatten_pairs pairs) l
            = math_sqrt (riid_n2 c0 a1 e1 b1 f1 a2 e2 b2 f2 pairs l)).
  { unfold formula_4. rewrite Hchunks. unfold chunks, slice.
    cbn [getitem nth_error bind map Nat.add Nat.sub skipn firstn for_each].
    rewrite !math_pow_2.
    rewrite (math_pow_positive l e1 Hl), (math_pow_positive l e2 Hl).
    rewrite (math_pow_positive b1 f1 Hb1), (math_pow_positive b2 f2 Hb2).
    cbn [bind]. rewrite py_div_Ok by exact Hp1. cbn [bind].
    rewrite py_div_Ok by exact Hp2. cbn [bind].
    match goal with
    | |- context [for_each ?b _ ?a0] =>
        rewrite (for_each_pairs b (fun p => fst p * Rpower l (snd p))
                   (fun _ => True) Hbody pairs Hall a0)
    end.
    reflexivity. }
  rewrite Hval.
  split; intros H; [apply math_sqrt_Ok | apply math_sqrt_negative]; exact H.
Qed.

Lemma formula_4_closed_form_witness :
  formula_4 (1 :: 1 :: 0 :: 1 :: 1 :: 1 :: 0 :: 1 :: 1 :: flatten_pairs []) 2
  = Ok (sqrt (riid_n2 1 1 0 1 1 1 0 1 1 [] 2)).
Proof.
  assert (H2 : 0 < 2) by lra. assert (H1 : 0 < 1) by lra.
  assert (Hpole : 2 ^ 2 - Rpower 1 1 <> 0)
    by (rewrite Rpower_1 by lra; lra).
  apply (proj1 (formula_4_closed_form 1 1 0 1 1 1 0 1 1 2 []
                  H2 H1 H1 Hpole Hpole)).
  unfold riid_n2, pair_sum. cbn [fold_right].
  rewrite Rpower_O by lra. rewrite Rpower_1 by lra. lra.
Defined.

(** X27.  Formula 9 on six coefficients (further ones are not read): off the
    pole [l^2 = c2] and with [(l - c4)^2 + c5] other than zero it returns
    the square root of [c0 + c1 / (l^2 - c2)
    + c3 * (l - c4) / ((l - c4)^2 + c5)] when that is not negative and
    raises [ValueError] when it is; when either denominator is zero it
    raises [ZeroDivisionError]. *)
Theorem formula_9_closed_form (c0 c1 c2 c3 c4 c5 l : R) (rest : list R) :
  (l ^ 2 - c2 <> 0 -> (l - c4) ^ 2 + c5 <> 0 ->
   (0 <= exotic_n2 c0 c1 c2 c3 c4 c5 l ->
    formula_9 (c0 :: c1 :: c2 :: c3 :: c4 :: c5 :: rest) l
    = Ok (sqrt (exotic_n2 c0 c1 c2 c3 c4 c5 l)))
   /\ (exotic_n2 c0 c1 c2 c3 c4 c5 l < 0 ->
       formula_9 (c0 :: c1 :: c2 :: c3 :: c4 :: c5 :: rest) l
       = Raise ValueError))
  /\ (l ^ 2 - c2 = 0 \/ (l - c4) ^ 2 + c5 = 0 ->
      formula_9 (c0 :: c1 :: c2 :: c3 :: c4 :: c5 :: rest) l
      = Raise ZeroDivisionError).
Proof.
  split.
  - intros Hp1 Hp2.
    assert (Hval : formula_9 (c0 :: c1 :: c2 :: c3 :: c4 :: c5 :: rest) l
                   = math_sqrt (exotic_n2 c0 c1 c2 c3 c4 c5 l)).
    { unfold formula_9. cbn [getitem nth_error bind]. rewrite !math_pow_2.
      cbn [bind]. rewrite py_div_Ok by exact Hp1. cbn [bind].
      rewrite py_div_Ok by exact Hp2. reflexivity. }
    rewrite Hval.
    split; intros H; [apply math_sqrt_Ok | apply math_sqrt_negative];
      exact H.
  - intros Hpole. unfold formula_9. cbn [getitem nth_error bind].
    rewrite !math_pow_2. cbn [bind].
    destruct (Req_dec_T (l ^ 2 - c2) 0) as [E1 | N1].
    + rewrite E1, py_div_zero. reflexivity.
    + rewrite py_div_Ok by exact N1. cbn [bind].
      destruct Hpole as [E1 | E2]; [contradiction | ].
      rewrite E2, py_div_zero. reflexivity.
Qed.

Lemma formula_9_closed_form_witness :
  formula_9 [1; 1; 0; 1; 0; 1] 1 = Ok (sqrt (exotic_n2 1 1 0 1 0 1 1)).
Proof.
  assert (Hp1 : 1 ^ 2 - 0 <> 0) by lra.
  assert (Hp2 : (1 - 0) ^ 2 + 1 <> 0) by lra.
  apply (proj1 (proj1 (formula_9_closed_form 1 1 0 1 0 1 1 []) Hp1 Hp2)).
  unfold exotic_n2. lra.
Defined.

(** X28.  The dispersion function of an instance built from the database
    takes the angular frequency and nothing else: the closure of the [n]
    setter hands on every argument it gets, so a call of [n] with a second
    argument raises [TypeError] once the first has passed the range
    check. *)
Theorem riid_n_takes_one_argument (db : string) (e : entry)
  (m : Material) (omega x : R) (rest : list R) :
  RIIDMaterial_init db e = ([], Ok m) ->
  in_range m omega ->
  n m (omega :: x :: rest) = Raise TypeError.
Proof.
  intros Hinit (lo & hi & Hr & Hin).
  unfold RIIDMaterial_init, extract_dispersion in Hinit.
  destruct (DATA e) as [data | ]; [ | discriminate].
  destruct (data_loop data _) as [out' r] eqn:Hloop.
  injection Hinit as -> Hinit.
  destruct r as [vars' | err]; [ | discriminate]. cbn [bind] in Hinit.
  apply data_loop_inv in Hloop
    as [(_ & _ & Hn) | (pre & d & post & t & _ & _ & _ & Hc)].
  - cbn [local_n] in Hn. rewrite Hn in Hinit. discriminate.
  - destruct Hc as [(_ & _ & Ha) | (_ & Hn)].
    + apply analytical_inv in Ha as (r & cs & k & _ & _ & _ & _ & ->).
      cbn [is_None local_n local_type local_range bind] in Hinit.
      apply Material_init_inv in Hinit as (f & a & b & Ef & _ & ->).
      injection Ef as <-.
      match type of Hr with
      | _range_ ?self = _ =>
          rewrite (proj1 (n_first_argument self
                            (frequency_wrap (formula_of k cs))
                            lo hi omega (x :: rest) eq_refl Hr) Hin)
      end.
      reflexivity.
    + cbn [local_n] in Hn. rewrite Hn in Hinit. discriminate.
Qed.

Lemma riid_n_takes_one_argument_witness :
  n (sellmeier_material "Sellmeier.yml" None None) [c * 2 * PI / 2; 0]
  = Raise TypeError.
Proof.
  assert (H2 : 1 <= 2 <= 10) by lra.
  exact (riid_n_takes_one_argument "Sellmeier.yml" sellmeier_entry
           (sellmeier_material "Sellmeier.yml" None None)
           (c * 2 * PI / 2) 0 []
           (sellmeier_init "Sellmeier.yml" sellmeier_entry [] []
              eq_refl (Forall_nil _))
           (sellmeier_in_range "Sellmeier.yml" None None 2 H2)).
Defined.
